(** * quickAnalysis: the orchestration layer of LATAnalysisScripts

    A shallow embedding of [src/quickAnalysis.py].  The script fills the
    parameter dictionaries of the gt_apps objects ([filter], [maketime],
    [expCube], [expMap], [evtbin], [srcMaps]) from two configuration
    dictionaries and hands them to the external toolkit.  Everything the
    script does to the outside (logging, printing, running a tool, looking
    for files) is recorded as an [event] of a trace; the dictionaries are
    finite maps from strings to Python values; exceptions are results. *)

From Stdlib Require Import ZArith Floats Ascii String.
From stdpp Require Import gmap strings list pretty.

Set Warnings "-inexact-float".
Local Open Scope Z_scope.
Local Open Scope string_scope.
Local Open Scope list_scope.

(** ** Python values and dictionaries *)

Inductive value : Type :=
| VInt (z : Z)
| VFloat (f : float)
| VStr (s : string)
| VBool (b : bool).

(** A configuration dictionary and a tool's parameter set are both flat
    dictionaries with string keys. *)
Abbreviation conf := (gmap string value).

Inductive exn : Type :=
| AttributeError (attr : string)
| KeyError (key : string)
| TypeError (msg : string)
| ValueError
| OverflowError
| IndexError
| FileNotFound
| BadUsage
| GetoptError (msg : string) (opt : string).

Inductive outcome (A : Type) : Type :=
| Returns (a : A)
| Raises (e : exn).
Arguments Returns {A} a.
Arguments Raises {A} e.

(** Truth value of an object in an [if]. *)
Definition truthy (v : value) : bool :=
  match v with
  | VBool b => b
  | VInt z => negb (Z.eqb z 0)
  | VFloat f => negb (PrimFloat.eqb f 0%float)
  | VStr s => negb (String.eqb s "")
  end.

(** ** The objects of gt_apps *)

Module gt_apps.
Inductive app : Type :=
| filter | maketime | expCube | expMap | evtbin | srcMaps.

Definition eqb (a b : app) : bool :=
  match a, b with
  | filter, filter | maketime, maketime | expCube, expCube
  | expMap, expMap | evtbin, evtbin | srcMaps, srcMaps => true
  | _, _ => false
  end.

Lemma eqb_eq a b : eqb a b = true <-> a = b.
Proof. destruct a, b; simpl; split; intros E; try reflexivity; discriminate E. Qed.

Lemma eqb_refl a : eqb a a = true.
Proof. destruct a; reflexivity. Qed.

Lemma eqb_neq a b : a <> b -> eqb a b = false.
Proof.
  intros N. destruct (eqb a b) eqn:E; [|reflexivity].
  apply eqb_eq in E. contradiction.
Qed.
End gt_apps.
Abbreviation app := gt_apps.app.

(** ** What the script does to the outside world *)

Inductive event : Type :=
| EvInitLogger (base : string) (name : string)
| EvInfo (msg : string)
| EvCritical (msg : string)
| EvPrint (msg : string)
| EvCheckForFiles (files : list string)
| EvRunCommand (a : app) (p : conf) (run : bool)
| EvOsSystem (cmd : string)
| EvReadConfig (base : string)
| EvCheckConfig (defaults : conf) (read : conf)
| EvWriteConfig (common : conf) (analysis : conf)
| EvGenerateXMLmodel (base : value)
| EvRunModel (base : value) (irfs : value) (run : bool).

(** ** Library functions the command line uses *)

(** [getopt.getopt(args, shortopts)] of the standard library, without long
    options.  The library collects the options in a list that it extends
    while it scans; here the list is built on the way back, an error
    anywhere giving the error. *)
Module getopt.

Definition not_recognized (opt : string) : exn :=
  GetoptError ("option -" +:+ opt +:+ " not recognized") opt.
Definition requires_argument (opt : string) : exn :=
  GetoptError ("option -" +:+ opt +:+ " requires argument") opt.

(** [for i in range(len(shortopts)): if opt == shortopts[i] != ':':
    return shortopts.startswith(':', i+1)], else the error. *)
Fixpoint short_has_arg (opt : ascii) (shortopts : string) : outcome bool :=
  match shortopts with
  | EmptyString => Raises (not_recognized (String opt ""))
  | String c rest =>
      if (Ascii.eqb opt c && negb (Ascii.eqb c ":"%char))%bool then
        Returns (match rest with String ":"%char _ => true | _ => false end)
      else short_has_arg opt rest
  end.

Definition add_opt (o : string * string)
    (r : outcome (list (string * string) * list string))
    : outcome (list (string * string) * list string) :=
  match r with
  | Returns (opts, args) => Returns (o :: opts, args)
  | Raises e => Raises e
  end.

(** The name of a long option: what stands before the first [=]. *)
Fixpoint long_name (opt : string) : string :=
  match opt with
  | EmptyString => EmptyString
  | String c rest => if Ascii.eqb c "="%char then EmptyString else String c (long_name rest)
  end.

Fixpoint getopt (args : list string) (shortopts : string)
    : outcome (list (string * string) * list string) :=
  match args with
  | [] => Returns ([], [])
  | String "-"%char EmptyString :: _ => Returns ([], args)
  | String "-"%char (String "-"%char EmptyString) :: rest => Returns ([], rest)
  | String "-"%char (String "-"%char long) :: _ =>
      (* do_longs with no long option declared *)
      Raises (GetoptError ("option --" +:+ long_name long +:+ " not recognized")
                          (long_name long))
  | String "-"%char optstring :: rest =>
      (fix do_shorts (optstring : string) :=
         match optstring with
         | EmptyString => getopt rest shortopts
         | String opt optstring' =>
             match short_has_arg opt shortopts with
             | Raises e => Raises e
             | Returns true =>
                 match optstring' with
                 | EmptyString =>
                     match rest with
                     | [] => Raises (requires_argument (String opt ""))
                     | optarg :: rest' =>
                         add_opt (String "-"%char (String opt ""), optarg)
                                 (getopt rest' shortopts)
                     end
                 | _ =>
                     add_opt (String "-"%char (String opt ""), optstring')
                             (getopt rest shortopts)
                 end
             | Returns false =>
                 add_opt (String "-"%char (String opt ""), "") (do_shorts optstring')
             end
         end) optstring
  | _ => Returns ([], args)
  end.

End getopt.

(** [os.path.basename]: what follows the last slash. *)
Fixpoint basename_from (acc : string) (p : string) : string :=
  match p with
  | EmptyString => acc
  | String c rest =>
      if Ascii.eqb c "/"%char then basename_from "" rest
      else basename_from (acc +:+ String c "") rest
  end.
Definition basename (p : string) : string := basename_from "" p.

(** [fmt % args] for a tuple of strings, with the conversions [%s] and
    [%%]. *)
Fixpoint py_format (fmt : string) (args : list string) : outcome string :=
  match fmt with
  | EmptyString =>
      match args with
      | [] => Returns ""
      | _ => Raises (TypeError "not all arguments converted during string formatting")
      end
  | String "%"%char (String "s"%char rest) =>
      match args with
      | [] => Raises (TypeError "not enough arguments for format string")
      | a :: args' =>
          match py_format rest args' with
          | Returns t => Returns (a +:+ t)
          | Raises e => Raises e
          end
      end
  | String "%"%char (String "%"%char rest) =>
      match py_format rest args with
      | Returns t => Returns (String "%"%char t)
      | Raises e => Raises e
      end
  | String "%"%char _ => Raises ValueError
  | String c rest =>
      match py_format rest args with
      | Returns t => Returns (String c t)
      | Raises e => Raises e
      end
  end.

(** Text and float conversions of the interpreter that are not spelled out
    here: [float] of a string and [str] of a float. *)
Class PyFloatText : Type := {
  float_of_string : string -> option float;
  str_of_float : float -> string
}.

(** The helpers of quickUtils the script calls.  quickUtils is a module of
    this repository, but it is not among the sources at hand, so each helper
    is a member of this interface; [Env] is the outside world they read and
    change (the working directory above all). *)
Class QuickUtils (Env : Type) : Type := {
  file_exists : Env -> string -> bool;
  readConfig_util : string -> Env -> outcome (conf * conf * conf * conf);
  checkConfig_util : conf -> conf -> outcome conf;
  writeConfig_util : conf -> conf -> Env -> Env;
  NumberOfPixels : float -> value -> value;
  generateXMLmodel_util : value -> Env -> outcome unit * Env;
  runModel_util : value -> value -> bool -> Env -> Env;
  runCommand_util : app -> conf -> bool -> Env -> Env;
  os_system : string -> Env -> Env
}.

Section Script.
Context {Env : Type} {PF : PyFloatText} {QU : QuickUtils Env}.

(** ** The state the script runs in *)

Record world : Type := World {
  pars : app -> conf;        (* the parameters of the six gt_apps objects *)
  env : Env                  (* the outside world *)
}.

(** One run of a computation: how it ended, the world it left, and what it
    did to the outside, oldest event first. *)
Record run_of (A : Type) : Type := Run {
  out : outcome A;
  after : world;
  did : list event
}.
Arguments Run {A} out after did.
Arguments out {A} r.
Arguments after {A} r.
Arguments did {A} r.

(** A computation changes the world and returns or raises; what was done
    before an exception stays done. *)
Definition M (A : Type) : Type := world -> run_of A.

Definition ret {A} (a : A) : M A := fun w => Run (Returns a) w [].
Definition raise {A} (e : exn) : M A := fun w => Run (Raises e) w [].
Definition bind {A B} (m : M A) (k : A -> M B) : M B :=
  fun w => let r := m w in
           match out r with
           | Returns a =>
               let r2 := k a (after r) in
               Run (out r2) (after r2) (did r ++ did r2)
           | Raises e => Run (Raises e) (after r) (did r)
           end.

Notation "x <- m ;; k" := (bind m (fun x => k))
  (at level 100, m at next level, right associativity).
Notation "m ;;; k" := (bind m (fun _ => k))
  (at level 100, right associativity).

(** [try: x = m / except C: handler; return / (the rest, k x)]: every
    handler of the script ends the enclosing function. *)
Definition try_except {A B} (m : M A) (catches : exn -> bool)
    (handler : M B) (k : A -> M B) : M B :=
  fun w => let r := m w in
           match out r with
           | Returns a =>
               let r2 := k a (after r) in
               Run (out r2) (after r2) (did r ++ did r2)
           | Raises e =>
               if catches e then
                 let r2 := handler (after r) in
                 Run (out r2) (after r2) (did r ++ did r2)
               else Run (Raises e) (after r) (did r)
           end.

Definition is_FileNotFound (e : exn) : bool :=
  match e with FileNotFound => true | _ => false end.
Definition is_KeyError (e : exn) : bool :=
  match e with KeyError _ => true | _ => false end.

Definition emit (e : event) : M unit := fun w => Run (Returns tt) w [e].

(** The world with the parameter [k] of [a] set to [v], and the world with
    the outside replaced. *)
Definition set_par (a : app) (k : string) (v : value) (w : world) : world :=
  World (fun b => if gt_apps.eqb b a then <[k:=v]> (pars w b) else pars w b) (env w).

Definition set_env (e : Env) (w : world) : world := World (pars w) e.

Definition change_env (f : Env -> Env) : M unit :=
  fun w => Run (Returns tt) (set_env (f (env w)) w) [].

(** [a[k] = v] on a gt_apps object. *)
Definition setpar (a : app) (k : string) (v : value) : M unit :=
  fun w => Run (Returns tt) (set_par a k v w) [].

(** ** Python expressions used by the script *)

(** [d[k]] *)
Definition getitem (d : conf) (k : string) : M value :=
  match d !! k with
  | Some v => ret v
  | None => raise (KeyError k)
  end.

Definition str_operand_error : string := "cannot concatenate 'str' and other objects".

(** ["literal" + v] *)
Definition concat_l (s : string) (v : value) : M string :=
  match v with
  | VStr t => ret (s +:+ t)
  | _ => raise (TypeError str_operand_error)
  end.

(** [v + "literal"] *)
Definition concat_r (v : value) (s : string) : M string :=
  match v with
  | VStr t => ret (t +:+ s)
  | _ => raise (TypeError str_operand_error)
  end.

Definition float_of_Z (z : Z) : float :=
  SF2Prim (binary_normalize prec emax z 0 false).

(** [float(v)] *)
Definition float_of_value (v : value) : outcome float :=
  match v with
  | VInt z =>
      let f := float_of_Z z in
      if PrimFloat.is_infinity f then Raises OverflowError else Returns f
  | VFloat f => Returns f
  | VBool b => Returns (if b then 1%float else 0%float)
  | VStr s =>
      match float_of_string s with
      | Some f => Returns f
      | None => Raises ValueError
      end
  end.

Definition py_float (v : value) : M float := fun w => Run (float_of_value v) w [].

(** [str(v)] *)
Definition py_str (v : value) : string :=
  match v with
  | VInt z => pretty z
  | VFloat f => str_of_float f
  | VStr s => s
  | VBool b => if b then "True" else "False"
  end.

(** ** Helpers of quickUtils as computations *)

Definition logger_info (msg : string) : M unit := emit (EvInfo msg).
Definition logger_critical (msg : string) : M unit := emit (EvCritical msg).
Definition py_print (msg : string) : M unit := emit (EvPrint msg).

(** Modelled from the spec: quickUtils.checkForFiles is not under src/.  The
    spec calls it a "required file missing" check before invocation; it
    raises [FileNotFound] when one of the listed files does not exist. *)
Definition checkForFiles (files : list string) : M unit :=
  emit (EvCheckForFiles files) ;;;
  fun w => if forallb (file_exists (env w)) files
           then Run (Returns tt) w [] else Run (Raises FileNotFound) w [].

(** Modelled from the spec: quickUtils.runCommand is not under src/.  It is
    the single external-process invocation of a run-method: the tool of the
    gt_apps object is handed the object's current parameters, which it does
    not change, and the [run] flag. *)
Definition runCommand (a : app) (run : bool) : M unit :=
  fun w => Run (Returns tt)
               (set_env (runCommand_util a (pars w a) run (env w)) w)
               [EvRunCommand a (pars w a) run].

Definition os_system_call (cmd : string) : M unit :=
  emit (EvOsSystem cmd) ;;; change_env (os_system cmd).

Definition readConfig (base : string) : M (conf * conf * conf * conf) :=
  emit (EvReadConfig base) ;;;
  fun w => Run (readConfig_util base (env w)) w [].

Definition checkConfig (defaults read : conf) : M conf :=
  emit (EvCheckConfig defaults read) ;;;
  fun w => Run (checkConfig_util defaults read) w [].

Definition writeConfig_call (common analysis : conf) : M unit :=
  emit (EvWriteConfig common analysis) ;;;
  change_env (writeConfig_util common analysis).

Definition generateXMLmodel_call (base : value) : M unit :=
  emit (EvGenerateXMLmodel base) ;;;
  fun w => let '(r, e) := generateXMLmodel_util base (env w) in
           Run r (set_env e w) [].

Definition runModel_call (base irfs : value) (run : bool) : M unit :=
  emit (EvRunModel base irfs run) ;;;
  change_env (runModel_util base irfs run).

(** ** class quickAnalysis *)

Record quickAnalysis : Type := QuickAnalysis {
  logger : string;
  commonConf : option conf;
  analysisConf : option conf
}.

(** [self.commonConf[k]] and [self.analysisConf[k]] *)
Definition self_commonConf (self : quickAnalysis) (k : string) : M value :=
  match commonConf self with
  | Some d => getitem d k
  | None => raise (AttributeError "commonConf")
  end.

Definition self_analysisConf (self : quickAnalysis) (k : string) : M value :=
  match analysisConf self with
  | Some d => getitem d k
  | None => raise (AttributeError "analysisConf")
  end.

(** [self.commonConf['base'] + suffix] *)
Definition base_plus (self : quickAnalysis) (suffix : string) : M string :=
  b <- self_commonConf self "base" ;; concat_r b suffix.

Definition default_analysisConfig : conf :=
  <["ra" := VInt 0]> (<["dec" := VInt 0]> (<["rad" := VInt 10]>
  (<["tmin" := VStr "INDEF"]> (<["tmax" := VStr "INDEF"]>
  (<["emin" := VInt 100]> (<["emax" := VInt 300000]>
  (<["zmax" := VInt 100]> ∅))))))).

Definition default_commonConfig : conf :=
  <["base" := VStr "MySource"]> (<["binned" := VBool false]>
  (<["eventclass" := VInt 2]> (<["irfs" := VStr "P7SOURCE_V6"]>
  (<["verbosity" := VInt 0]> ∅)))).

Definition missing_files_msg : string := "One or more needed files do not exist".


(** The items of a dictionary, in the dictionary's own order. *)
Definition iteritems (d : conf) : list (string * value) := map_to_list d.

Definition log_items (d : conf) (logString : string) : string :=
  fold_left (fun acc '(variable, v) => acc +:+ variable +:+ "=" +:+ py_str v +:+ ",")
            (iteritems d) logString.

Definition __init__ (base : string) (configFile : bool)
    (analysisConfig commonConfig : conf) : M quickAnalysis :=
  let commonConfig := <["base" := VStr base]> commonConfig in
  emit (EvInitLogger base "quickAnalysis") ;;;
  let self := QuickAnalysis base None None in
  let rest (commonConfig analysisConfig : conf) : M quickAnalysis :=
    let logString := "Created quickAnalysis object: " in
    let logString := log_items commonConfig logString in
    let logString := log_items analysisConfig logString in
    logger_info logString ;;;
    ret (QuickAnalysis base (Some commonConfig) (Some analysisConfig)) in
  if configFile then
    try_except (readConfig base) is_FileNotFound
      (logger_critical missing_files_msg ;;; ret self)
      (fun '(commonConfigRead, analysisConfigRead, _, _) =>
    try_except (checkConfig commonConfig commonConfigRead) is_KeyError
      (ret self)
      (fun commonConfig =>
    try_except (checkConfig analysisConfig analysisConfigRead) is_KeyError
      (ret self)
      (fun analysisConfig => rest commonConfig analysisConfig)))
  else rest commonConfig analysisConfig.

Definition writeConfig (self : quickAnalysis) : M unit :=
  match commonConf self with
  | None => raise (AttributeError "commonConf")
  | Some c =>
      match analysisConf self with
      | None => raise (AttributeError "analysisConf")
      | Some a => writeConfig_call c a
      end
  end.

Definition runSelect (self : quickAnalysis) (run : bool) (convtype : value) : M unit :=
  v <- self_analysisConf self "rad" ;; setpar gt_apps.filter "rad" v ;;;
  v <- self_commonConf self "eventclass" ;; setpar gt_apps.filter "evclass" v ;;;
  b <- self_commonConf self "base" ;; s <- concat_l "@" b ;;
  setpar gt_apps.filter "infile" (VStr (s +:+ ".list")) ;;;
  s <- base_plus self "_filtered.fits" ;; setpar gt_apps.filter "outfile" (VStr s) ;;;
  v <- self_analysisConf self "ra" ;; setpar gt_apps.filter "ra" v ;;;
  v <- self_analysisConf self "dec" ;; setpar gt_apps.filter "dec" v ;;;
  v <- self_analysisConf self "tmin" ;; setpar gt_apps.filter "tmin" v ;;;
  v <- self_analysisConf self "tmax" ;; setpar gt_apps.filter "tmax" v ;;;
  v <- self_analysisConf self "emin" ;; setpar gt_apps.filter "emin" v ;;;
  v <- self_analysisConf self "emax" ;; setpar gt_apps.filter "emax" v ;;;
  v <- self_analysisConf self "zmax" ;; setpar gt_apps.filter "zmax" v ;;;
  setpar gt_apps.filter "convtype" convtype ;;;
  runCommand gt_apps.filter run.

(** The defaults of the keyword arguments. *)
Definition default_convtype : value := VInt (-1).
Definition default_filterString : value :=
  VStr "DATA_QUAL==1 && LAT_CONFIG==1 && ABS(ROCK_ANGLE)<52".
Definition default_roi : value := VStr "yes".
Definition default_zmax : value := VInt 180.
Definition default_bin_size : value := VFloat 0.1%float.
Definition default_nbins : value := VInt 30.

Definition runGTI (self : quickAnalysis) (run : bool) (filterString roi : value) : M unit :=
  s <- base_plus self "_SC.fits" ;; setpar gt_apps.maketime "scfile" (VStr s) ;;;
  setpar gt_apps.maketime "filter" filterString ;;;
  setpar gt_apps.maketime "roicut" roi ;;;
  s <- base_plus self "_filtered.fits" ;; setpar gt_apps.maketime "evfile" (VStr s) ;;;
  s <- base_plus self "_filtered_gti.fits" ;; setpar gt_apps.maketime "outfile" (VStr s) ;;;
  runCommand gt_apps.maketime run.

Definition runLTCube (self : quickAnalysis) (run : bool) (zmax : value) : M unit :=
  s <- base_plus self "_filtered_gti.fits" ;; setpar gt_apps.expCube "evfile" (VStr s) ;;;
  s <- base_plus self "_SC.fits" ;; setpar gt_apps.expCube "scfile" (VStr s) ;;;
  s <- base_plus self "_ltcube.fits" ;; setpar gt_apps.expCube "outfile" (VStr s) ;;;
  setpar gt_apps.expCube "dcostheta" (VFloat 0.025%float) ;;;
  setpar gt_apps.expCube "binsz" (VInt 1) ;;;
  setpar gt_apps.expCube "zmax" zmax ;;;
  runCommand gt_apps.expCube run.

Definition runExpMap (self : quickAnalysis) (run : bool) : M unit :=
  s <- base_plus self "_filtered_gti.fits" ;; setpar gt_apps.expMap "evfile" (VStr s) ;;;
  s <- base_plus self "_SC.fits" ;; setpar gt_apps.expMap "scfile" (VStr s) ;;;
  s <- base_plus self "_ltcube.fits" ;; setpar gt_apps.expMap "expcube" (VStr s) ;;;
  s <- base_plus self "_expMap.fits" ;; setpar gt_apps.expMap "outfile" (VStr s) ;;;
  v <- self_commonConf self "irfs" ;; setpar gt_apps.expMap "irfs" v ;;;
  r <- self_analysisConf self "rad" ;; f <- py_float r ;;
  setpar gt_apps.expMap "srcrad" (VFloat (PrimFloat.add f 10%float)) ;;;
  setpar gt_apps.expMap "nlong" (VInt 120) ;;;
  setpar gt_apps.expMap "nlat" (VInt 120) ;;;
  setpar gt_apps.expMap "nenergies" (VInt 20) ;;;
  runCommand gt_apps.expMap run.

(** [NumberOfPixels(float(self.analysisConf['rad']), bin_size)] *)
Definition npix_of (self : quickAnalysis) (bin_size : value) : M value :=
  r <- self_analysisConf self "rad" ;; f <- py_float r ;;
  ret (NumberOfPixels f bin_size).

Definition runCCUBE (self : quickAnalysis) (run : bool) (bin_size nbins : value) : M unit :=
  npix <- npix_of self bin_size ;;
  s <- base_plus self "_filtered_gti.fits" ;; setpar gt_apps.evtbin "evfile" (VStr s) ;;;
  s <- base_plus self "_CCUBE.fits" ;; setpar gt_apps.evtbin "outfile" (VStr s) ;;;
  setpar gt_apps.evtbin "algorithm" (VStr "CCUBE") ;;;
  setpar gt_apps.evtbin "nxpix" npix ;;;
  setpar gt_apps.evtbin "nypix" npix ;;;
  setpar gt_apps.evtbin "binsz" bin_size ;;;
  setpar gt_apps.evtbin "coordsys" (VStr "CEL") ;;;
  v <- self_analysisConf self "ra" ;; setpar gt_apps.evtbin "xref" v ;;;
  v <- self_analysisConf self "dec" ;; setpar gt_apps.evtbin "yref" v ;;;
  setpar gt_apps.evtbin "axisrot" (VInt 0) ;;;
  setpar gt_apps.evtbin "proj" (VStr "AIT") ;;;
  setpar gt_apps.evtbin "ebinalg" (VStr "LOG") ;;;
  v <- self_analysisConf self "emin" ;; setpar gt_apps.evtbin "emin" v ;;;
  v <- self_analysisConf self "emax" ;; setpar gt_apps.evtbin "emax" v ;;;
  setpar gt_apps.evtbin "enumbins" nbins ;;;
  runCommand gt_apps.evtbin run.

Definition runCMAP (self : quickAnalysis) (run : bool) (bin_size : value) : M unit :=
  npix <- npix_of self bin_size ;;
  s <- base_plus self "_filtered_gti.fits" ;; setpar gt_apps.evtbin "evfile" (VStr s) ;;;
  s <- base_plus self "_CMAP.fits" ;; setpar gt_apps.evtbin "outfile" (VStr s) ;;;
  setpar gt_apps.evtbin "algorithm" (VStr "CMAP") ;;;
  setpar gt_apps.evtbin "nxpix" npix ;;;
  setpar gt_apps.evtbin "nypix" npix ;;;
  setpar gt_apps.evtbin "binsz" bin_size ;;;
  setpar gt_apps.evtbin "coordsys" (VStr "CEL") ;;;
  v <- self_analysisConf self "ra" ;; setpar gt_apps.evtbin "xref" v ;;;
  v <- self_analysisConf self "dec" ;; setpar gt_apps.evtbin "yref" v ;;;
  setpar gt_apps.evtbin "axisrot" (VInt 0) ;;;
  setpar gt_apps.evtbin "proj" (VStr "AIT") ;;;
  runCommand gt_apps.evtbin run.

Definition runExpCube (self : quickAnalysis) (run : bool) (bin_size nbins : value) : M unit :=
  npix <- npix_of self bin_size ;;
  b <- self_commonConf self "base" ;; cmd <- concat_l "gtexpcube2 infile=" b ;;
  let cmd := cmd +:+ "_ltcube.fits" +:+ " cmap=none" +:+ " outfile=" in
  b <- self_commonConf self "base" ;; cmd <- concat_l cmd b ;;
  let cmd := cmd +:+ "_BinnedExpMap.fits" +:+ " irfs=" in
  i <- self_commonConf self "irfs" ;; cmd <- concat_l cmd i ;;
  ra <- self_analysisConf self "ra" ;;
  let cmd := cmd +:+ " xref=" +:+ py_str ra in
  dec <- self_analysisConf self "dec" ;;
  let cmd := cmd +:+ " yref=" +:+ py_str dec
                 +:+ " nxpix=" +:+ py_str npix
                 +:+ " nypix=" +:+ py_str npix
                 +:+ " binsz=" +:+ py_str bin_size
                 +:+ " coordsys=CEL" +:+ " axisrot=0" +:+ " proj=AIT" +:+ " ebinalg=LOG" in
  emin <- self_analysisConf self "emin" ;;
  let cmd := cmd +:+ " emin=" +:+ py_str emin in
  emax <- self_analysisConf self "emax" ;;
  let cmd := cmd +:+ " emax=" +:+ py_str emax +:+ " enumbins=" +:+ py_str nbins in
  if run then os_system_call cmd ;;; logger_info cmd
  else py_print cmd.

Definition generateXMLmodel (self : quickAnalysis) : M unit :=
  try_except (b <- self_commonConf self "base" ;; generateXMLmodel_call b)
    is_FileNotFound
    (logger_critical missing_files_msg)
    (fun _ => ret tt).

Definition runSrcMaps (self : quickAnalysis) (run : bool) : M unit :=
  generateXMLmodel self ;;;
  try_except
    (f1 <- base_plus self "_CCUBE.fits" ;;
     f2 <- base_plus self "_ltcube.fits" ;;
     f3 <- base_plus self "_BinnedExpMap.fits" ;;
     f4 <- base_plus self "_SC.fits" ;;
     checkForFiles [f1; f2; f3; f4])
    is_FileNotFound
    (logger_critical missing_files_msg)
    (fun _ =>
  s <- base_plus self "_SC.fits" ;; setpar gt_apps.srcMaps "scfile" (VStr s) ;;;
  s <- base_plus self "_ltcube.fits" ;; setpar gt_apps.srcMaps "expcube" (VStr s) ;;;
  s <- base_plus self "_CCUBE.fits" ;; setpar gt_apps.srcMaps "cmap" (VStr s) ;;;
  s <- base_plus self "_model.xml" ;; setpar gt_apps.srcMaps "srcmdl" (VStr s) ;;;
  s <- base_plus self "_BinnedExpMap.fits" ;; setpar gt_apps.srcMaps "bexpmap" (VStr s) ;;;
  s <- base_plus self "_srcMaps.fits" ;; setpar gt_apps.srcMaps "outfile" (VStr s) ;;;
  v <- self_commonConf self "irfs" ;; setpar gt_apps.srcMaps "irfs" v ;;;
  setpar gt_apps.srcMaps "rfactor" (VInt 4) ;;;
  setpar gt_apps.srcMaps "emapbnds" (VStr "no") ;;;
  runCommand gt_apps.srcMaps run).

Definition runModel (self : quickAnalysis) (run : bool) : M unit :=
  b <- self_commonConf self "base" ;;
  i <- self_commonConf self "irfs" ;;
  runModel_call b i run.

Definition runAll (self : quickAnalysis) (run : bool) : M unit :=
  logger_info "***Checking for files***" ;;;
  try_except
    (f1 <- base_plus self ".list" ;;
     f2 <- base_plus self "_SC.fits" ;;
     checkForFiles [f1; f2])
    is_FileNotFound
    (logger_critical missing_files_msg)
    (fun _ =>
  logger_info "***Running gtselect***" ;;;
  runSelect self run default_convtype ;;;
  logger_info "***Running gtmktime***" ;;;
  runGTI self run default_filterString default_roi ;;;
  logger_info "***Running gtltcube***" ;;;
  runLTCube self run default_zmax ;;;
  binned <- self_commonConf self "binned" ;;
  if truthy binned then
    logger_info "***Running gtbin***" ;;;
    runCCUBE self run default_bin_size default_nbins ;;;
    logger_info "***Running gtexpcube2***" ;;;
    runExpCube self run default_bin_size default_nbins ;;;
    logger_info "***Running gtsrcMaps***" ;;;
    runSrcMaps self run
  else
    logger_info "***Running gtexpmap***" ;;;
    runExpMap self run).


(** ** Command-line interface *)

Definition usage_text : string :=
"quickAnalysis - Perform event selections and exposure
        calculations for Fermi LAT data.  You can use the command line
        functions listed below or run this module from within
        python. For full documentation on this module execute 'pydoc
        quickAnalysis'.

python %s <basename> ...  Perform an analysis on <basename>.
    <basename> is the prefix used for this analysis.  You must already
    have a configuration file if using the command line interface.

python %s -c ... Generate a default config file called example.cfg.
    Edit this file and rename it <basename>.cfg for use in the
    quickAnalysis module.

python %s -m <basename> ... Generate a model file from the 2FGL.  You
    need to already have <basename>_filtered_gti.fits in your working
    directory.  You can get this file by running the functions
    runSelect and runGTI on your data.  You also need to have the
    galactic and isotropic diffuse models in your working directory as
    well as the 2FGL model file.

python %s -M <basename> ... Generate a model map based on the model
    file in your config file.  You need to have several files already
    computed.  It's best to do the runAll script before trying this.

".

(** [sys.argv[i]] *)
Definition argv_item (argv : list string) (i : nat) : M string :=
  match argv !! i with
  | Some a => ret a
  | None => raise IndexError
  end.

(** [quickAnalysis(base)] and [quickAnalysis(base, True)]: the dictionaries
    are the defaults of the constructor. *)
Definition new_quickAnalysis (base : string) (configFile : bool) : M quickAnalysis :=
  __init__ base configFile default_analysisConfig default_commonConfig.

(** The handler of [except (getopt.error, BadUsage)]. *)
Definition usage (argv : list string) : M unit :=
  a0 <- argv_item argv 0 ;;
  let cmd := basename a0 in
  match py_format usage_text [cmd; cmd; cmd] with
  | Returns text => py_print text
  | Raises e => raise e
  end.

Definition is_usage_error (e : exn) : bool :=
  match e with GetoptError _ _ | BadUsage => true | _ => false end.

(** The body of [elif opt == '-M']. *)
Definition model_map_branch (argv args : list string) : M unit :=
  py_print "Creating model map" ;;;
  match args with
  | [] => raise BadUsage
  | _ =>
      a <- argv_item argv 2 ;;
      qA <- new_quickAnalysis a false ;;
      b <- self_commonConf qA "base" ;;
      i <- self_commonConf qA "irfs" ;;
      runModel_call b i true
  end.

(** [for opt, val in opts: ...]; every branch taken returns from [cli], and
    [rest] is what follows the loop.  The body of the [-M] branch is the
    argument [on_M]. *)
Fixpoint cli_opts (on_M : list string -> list string -> M unit)
    (argv args : list string) (opts : list (string * string)) (rest : M unit) : M unit :=
  match opts with
  | [] => rest
  | (opt, val) :: opts' =>
      if String.eqb opt "-c" then
        py_print "Creating example configuration file called example.cfg" ;;;
        qA <- new_quickAnalysis "example" false ;;
        writeConfig qA
      else if String.eqb opt "-M" then on_M argv args
      else if String.eqb opt "-m" then
        py_print "Creating model file from 2FGL called example_model.xml" ;;;
        match args with
        | [] => raise BadUsage
        | _ =>
            a <- argv_item argv 2 ;;
            qA <- new_quickAnalysis a false ;;
            generateXMLmodel qA
        end
      else cli_opts on_M argv args opts' rest
  end.

(** [for arg in args: qA = quickAnalysis(arg, True); qA.runAll(True)] *)
Fixpoint cli_args (args : list string) : M unit :=
  match args with
  | [] => ret tt
  | arg :: args' =>
      qA <- new_quickAnalysis arg true ;;
      runAll qA true ;;;
      cli_args args'
  end.

Definition cli_with (on_M : list string -> list string -> M unit)
    (argv : list string) : M unit :=
  try_except
    (match getopt.getopt (drop 1 argv) "cm" with
     | Raises e => raise e
     | Returns (opts, args) =>
         cli_opts on_M argv args opts
           (match args with
            | [] => raise BadUsage
            | _ => cli_args args
            end)
     end)
    is_usage_error
    (usage argv)
    (fun _ => ret tt).

Definition cli (argv : list string) : M unit := cli_with model_map_branch argv.

End Script.

Arguments Run {Env A} out after did.
Arguments out {Env A} r.
Arguments after {Env A} r.
Arguments did {Env A} r.

(** ** Commands issued to the toolkit *)

Inductive tool : Type :=
| gtselect | gtmktime | gtltcube | gtexpmap | gtbin | gtexpcube2 | gtsrcmaps.

#[global] Instance tool_eq_dec : EqDecision tool.
Proof. solve_decision. Defined.

(** The tool behind each gt_apps object. *)
Definition tool_of (a : app) : tool :=
  match a with
  | gt_apps.filter => gtselect
  | gt_apps.maketime => gtmktime
  | gt_apps.expCube => gtltcube
  | gt_apps.expMap => gtexpmap
  | gt_apps.evtbin => gtbin
  | gt_apps.srcMaps => gtsrcmaps
  end.

(** The command an event issues: a call of [runCommand] issues the tool of
    its object, and the one command line handed to [os.system] is that of
    gtexpcube2, built in [runExpCube]. *)
Definition issued_by (e : event) : option tool :=
  match e with
  | EvRunCommand a _ _ => Some (tool_of a)
  | EvOsSystem _ => Some gtexpcube2
  | _ => None
  end.

Definition issued (l : list event) : list tool := omap issued_by l.

(** No critical message among the events. *)
Definition quiet (l : list event) : Prop := forall msg, ~ In (EvCritical msg) l.


(** The value of [self.commonConf['binned']] in an [if], when there is one. *)
Definition binned_of (self : quickAnalysis) : option bool :=
  match commonConf self with
  | Some c => match c !! "binned" with Some v => Some (truthy v) | None => None end
  | None => None
  end.


(** The keys each run-method writes. *)
Definition runSelect_keys : list string :=
  ["rad"; "evclass"; "infile"; "outfile"; "ra"; "dec"; "tmin"; "tmax";
   "emin"; "emax"; "zmax"; "convtype"].
Definition runCMAP_keys : list string :=
  ["evfile"; "outfile"; "algorithm"; "nxpix"; "nypix"; "binsz"; "coordsys";
   "xref"; "yref"; "axisrot"; "proj"].

(** ** A small installation to run the script on

    A working directory that the tools leave as it is, given by the list of
    the files in it; configuration files that do not exist; floats printed
    for the one default the script prints. *)
Module Sample.

Definition text : PyFloatText := {|
  float_of_string := fun _ => None;
  str_of_float := fun _ => "0.1"
|}.

Definition utils : QuickUtils (list string) := {|
  file_exists := fun dir f => bool_decide (f ∈ dir);
  readConfig_util := fun _ _ => Raises FileNotFound;
  checkConfig_util := fun defaults read => Returns (read ∪ defaults);
  writeConfig_util := fun _ _ dir => dir;
  NumberOfPixels := fun _ _ => VInt 141;
  generateXMLmodel_util := fun _ dir => (Returns tt, dir);
  runModel_util := fun _ _ _ dir => dir;
  runCommand_util := fun _ _ _ dir => dir;
  os_system := fun _ dir => dir
|}.

(** The same helpers, with a configuration file that is found (and is
    empty). *)
Definition reading : QuickUtils (list string) := {|
  file_exists := fun dir f => bool_decide (f ∈ dir);
  readConfig_util := fun _ _ => Returns (∅, ∅, ∅, ∅);
  checkConfig_util := fun defaults read => Returns (read ∪ defaults);
  writeConfig_util := fun _ _ dir => dir;
  NumberOfPixels := fun _ _ => VInt 141;
  generateXMLmodel_util := fun _ dir => (Returns tt, dir);
  runModel_util := fun _ _ _ dir => dir;
  runCommand_util := fun _ _ _ dir => dir;
  os_system := fun _ dir => dir
|}.

Definition dir : list string :=
  ["MySource.list"; "MySource_SC.fits"; "MySource_CCUBE.fits";
   "MySource_ltcube.fits"; "MySource_BinnedExpMap.fits"].

Definition start : @world (list string) := World (fun _ => ∅) dir.
Definition empty_dir : @world (list string) := World (fun _ => ∅) [].

Definition unbinned : quickAnalysis :=
  QuickAnalysis "MySource" (Some default_commonConfig) (Some default_analysisConfig).
Definition binned : quickAnalysis :=
  QuickAnalysis "MySource"
    (Some (<["binned" := VBool true]> default_commonConfig))
    (Some default_analysisConfig).

End Sample.

(** * What the script guarantees *)

Section Facts.
Context {Env : Type} {PF : PyFloatText} {QU : QuickUtils Env}.

(** ** Reasoning about one run

    [post m w Q]: the run of [m] from [w] ends in an outcome, a world and a
    list of events that satisfy [Q].  The rules below follow the shape of the
    computation, one case per way an operation can end. *)

Definition post {A} (m : M A) (w : @world Env)
    (Q : outcome A -> @world Env -> list event -> Prop) : Prop :=
  Q (out (m w)) (after (m w)) (did (m w)).

(** Reading a world that was written. *)
Lemma pars_set_par_same a k v (w : @world Env) :
  pars (set_par a k v w) a = <[k:=v]> (pars w a).
Proof. cbn. by rewrite gt_apps.eqb_refl. Qed.

Lemma pars_set_par_other a b k v (w : @world Env) :
  b <> a -> pars (set_par a k v w) b = pars w b.
Proof. intros H. cbn. by rewrite gt_apps.eqb_neq. Qed.

Lemma env_set_par a k v (w : @world Env) : env (set_par a k v w) = env w.
Proof. reflexivity. Qed.

Lemma pars_set_env e (w : @world Env) : pars (set_env e w) = pars w.
Proof. reflexivity. Qed.

Lemma env_set_env e (w : @world Env) : env (set_env e w) = e.
Proof. reflexivity. Qed.

Lemma post_ret {A} (a : A) (w : @world Env) Q :
  Q (Returns a) w [] -> post (ret a) w Q.
Proof. exact id. Qed.

Lemma post_raise {A} e (w : @world Env) (Q : outcome A -> _) :
  Q (Raises e) w [] -> post (raise e) w Q.
Proof. exact id. Qed.

Lemma post_bind {A B} (m : M A) (k : A -> M B) (w : @world Env) Q :
  post m w (fun o w1 d1 =>
    match o with
    | Returns a => post (k a) w1 (fun o2 w2 d2 => Q o2 w2 (d1 ++ d2))
    | Raises e => Q (Raises e) w1 d1
    end) ->
  post (bind m k) w Q.
Proof. unfold post, bind. cbn. destruct (out (m w)); cbn; exact id. Qed.

Lemma post_try {A B} (m : M A) (catches : exn -> bool) (h : M B) (k : A -> M B)
    (w : @world Env) Q :
  post m w (fun o w1 d1 =>
    match o with
    | Returns a => post (k a) w1 (fun o2 w2 d2 => Q o2 w2 (d1 ++ d2))
    | Raises e =>
        if catches e then post h w1 (fun o2 w2 d2 => Q o2 w2 (d1 ++ d2))
        else Q (Raises e) w1 d1
    end) ->
  post (try_except m catches h k) w Q.
Proof.
  unfold post, try_except. cbn. destruct (out (m w)); cbn; [exact id|].
  destruct (catches e); exact id.
Qed.

Lemma post_any {A} (m : M A) (w : @world Env) (Q : outcome A -> _) :
  (forall o w' d, Q o w' d) -> post m w Q.
Proof. unfold post. auto. Qed.


Lemma post_getitem (d : conf) k (w : @world Env) Q :
  (forall v, d !! k = Some v -> Q (Returns v) w []) ->
  (d !! k = None -> Q (Raises (KeyError k)) w []) ->
  post (getitem d k) w Q.
Proof. unfold post, getitem. destruct (d !! k); cbn; auto. Qed.

Lemma post_self_commonConf self k (w : @world Env) Q :
  (forall c v, commonConf self = Some c -> c !! k = Some v -> Q (Returns v) w []) ->
  (forall c, commonConf self = Some c -> c !! k = None -> Q (Raises (KeyError k)) w []) ->
  (commonConf self = None -> Q (Raises (AttributeError "commonConf")) w []) ->
  post (self_commonConf self k) w Q.
Proof.
  unfold self_commonConf. intros H1 H2 H3.
  destruct (commonConf self) as [c|]; [|by apply H3].
  apply post_getitem; eauto.
Qed.

Lemma post_self_analysisConf self k (w : @world Env) Q :
  (forall c v, analysisConf self = Some c -> c !! k = Some v -> Q (Returns v) w []) ->
  (forall c, analysisConf self = Some c -> c !! k = None -> Q (Raises (KeyError k)) w []) ->
  (analysisConf self = None -> Q (Raises (AttributeError "analysisConf")) w []) ->
  post (self_analysisConf self k) w Q.
Proof.
  unfold self_analysisConf. intros H1 H2 H3.
  destruct (analysisConf self) as [c|]; [|by apply H3].
  apply post_getitem; eauto.
Qed.

Lemma post_concat_r v s (w : @world Env) Q :
  (forall t, v = VStr t -> Q (Returns (t +:+ s)) w []) ->
  ((forall t, v <> VStr t) -> Q (Raises (TypeError str_operand_error)) w []) ->
  post (concat_r v s) w Q.
Proof. intros H1 H2. destruct v; try (apply H2; congruence). by apply H1. Qed.

Lemma post_concat_l s v (w : @world Env) Q :
  (forall t, v = VStr t -> Q (Returns (s +:+ t)) w []) ->
  ((forall t, v <> VStr t) -> Q (Raises (TypeError str_operand_error)) w []) ->
  post (concat_l s v) w Q.
Proof. intros H1 H2. destruct v; try (apply H2; congruence). by apply H1. Qed.

Lemma post_py_float v (w : @world Env) Q :
  (forall f, float_of_value v = Returns f -> Q (Returns f) w []) ->
  (forall e, float_of_value v = Raises e -> Q (Raises e) w []) ->
  post (py_float v) w Q.
Proof. unfold post, py_float. cbn. destruct (float_of_value v); auto. Qed.

Lemma post_setpar a k v (w : @world Env) Q :
  Q (Returns tt) (set_par a k v w) [] -> post (setpar a k v) w Q.
Proof. exact id. Qed.

Lemma post_emit e (w : @world Env) Q : Q (Returns tt) w [e] -> post (emit e) w Q.
Proof. exact id. Qed.

Lemma post_change_env f (w : @world Env) Q :
  Q (Returns tt) (set_env (f (env w)) w) [] -> post (change_env f) w Q.
Proof. exact id. Qed.

Lemma post_runCommand a run (w : @world Env) Q :
  Q (Returns tt) (set_env (runCommand_util a (pars w a) run (env w)) w)
    [EvRunCommand a (pars w a) run] ->
  post (runCommand a run) w Q.
Proof. exact id. Qed.

Lemma post_checkForFiles files (w : @world Env) Q :
  (forallb (file_exists (env w)) files = true ->
   Q (Returns tt) w [EvCheckForFiles files]) ->
  (forallb (file_exists (env w)) files = false ->
   Q (Raises FileNotFound) w [EvCheckForFiles files]) ->
  post (checkForFiles files) w Q.
Proof.
  intros H1 H2. unfold post, checkForFiles, bind, emit. cbn.
  destruct (forallb _ files); cbn; auto.
Qed.

Lemma post_generateXMLmodel_call b (w : @world Env) Q :
  Q (generateXMLmodel_util b (env w)).1
    (set_env (generateXMLmodel_util b (env w)).2 w)
    [EvGenerateXMLmodel b] ->
  post (generateXMLmodel_call b) w Q.
Proof.
  unfold post, generateXMLmodel_call, bind, emit. cbn.
  destruct (generateXMLmodel_util b (env w)) as [[[]|e] e']; cbn; exact id.
Qed.

Lemma post_os_system_call cmd (w : @world Env) Q :
  Q (Returns tt) (set_env (os_system cmd (env w)) w) [EvOsSystem cmd] ->
  post (os_system_call cmd) w Q.
Proof. exact id. Qed.

(** One step of symbolic execution, by the shape of the computation. *)
Ltac wp_step :=
  lazymatch goal with
  | |- post (bind _ _) _ _ => apply post_bind
  | |- post (try_except _ _ _ _) _ _ => apply post_try
  | |- post (ret _) _ _ => apply post_ret
  | |- post (raise _) _ _ => apply post_raise
  | |- post (self_commonConf _ _) _ _ => apply post_self_commonConf; intros
  | |- post (self_analysisConf _ _) _ _ => apply post_self_analysisConf; intros
  | |- post (getitem _ _) _ _ => apply post_getitem; intros
  | |- post (concat_r _ _) _ _ => apply post_concat_r; intros
  | |- post (concat_l _ _) _ _ => apply post_concat_l; intros
  | |- post (py_float _) _ _ => apply post_py_float; intros
  | |- post (setpar _ _ _) _ _ => apply post_setpar
  | |- post (emit _) _ _ => apply post_emit
  | |- post (logger_info _) _ _ => apply post_emit
  | |- post (logger_critical _) _ _ => apply post_emit
  | |- post (py_print _) _ _ => apply post_emit
  | |- post (change_env _) _ _ => apply post_change_env
  | |- post (runCommand _ _) _ _ => apply post_runCommand
  | |- post (checkForFiles _) _ _ => apply post_checkForFiles; intros
  | |- post (generateXMLmodel_call _) _ _ => apply post_generateXMLmodel_call
  | |- post (os_system_call _) _ _ => apply post_os_system_call
  | |- post (base_plus _ _) _ _ => unfold base_plus
  | |- post (npix_of _ _) _ _ => unfold npix_of
  | |- post (generateXMLmodel _) _ _ => unfold generateXMLmodel
  | |- post (if ?b then _ else _) _ _ => destruct b eqn:?
  | |- match ?o with Returns _ => _ | Raises _ => _ end => destruct o eqn:?
  | |- if is_FileNotFound ?e then _ else _ =>
      first [is_var e; destruct e; cbn [is_FileNotFound] | cbn [is_FileNotFound]]
  end.

(** Unify what is known about the same attribute or key. *)
Ltac same_lookups :=
  repeat match goal with
  | H1 : ?x = Some ?a, H2 : ?x = Some ?b |- _ =>
      assert (a = b) by congruence; subst b; clear H2
  | H1 : ?x = Some _, H2 : ?x = None |- _ => congruence
  | H : VStr _ = VStr _ |- _ => injection H as H; subst
  | H : ?v = VStr _ |- _ => is_var v; subst v
  | H1 : ?x = Returns ?a, H2 : ?x = Returns ?b |- _ =>
      assert (a = b) by congruence; subst b; clear H2
  | H : forall t, VStr ?s <> VStr t |- _ => exfalso; exact (H s eq_refl)
  end.

Ltac wp := repeat (wp_step; cbn beta iota; try same_lookups).

(** Reading the parameters of a world built by a run. *)
Ltac read_world := cbn [pars env set_par set_env gt_apps.eqb].

(** ** Which parameters a run-method can change *)

(** [touches a keys w w']: from [w] to [w'] only the object [a] changed, and
    of its parameters only those named in [keys]. *)
Definition touches (a : app) (keys : list string) (w w' : @world Env) : Prop :=
  (forall b, b <> a -> pars w' b = pars w b) /\
  (forall k, ~ In k keys -> pars w' a !! k = pars w a !! k).

Lemma touches_refl a keys (w : @world Env) : touches a keys w w.
Proof. split; auto. Qed.

Lemma touches_trans a keys (w1 w2 w3 : @world Env) :
  touches a keys w1 w2 -> touches a keys w2 w3 -> touches a keys w1 w3.
Proof.
  intros [H1 H2] [H3 H4]. split.
  - intros b Hb. rewrite H3, H1; auto.
  - intros k Hk. rewrite H4, H2; auto.
Qed.

Lemma touches_setpar a keys k v (w : @world Env) :
  In k keys -> touches a keys w (set_par a k v w).
Proof.
  intros Hin. split; cbn.
  - intros b Hb. by rewrite gt_apps.eqb_neq.
  - intros k' Hk'. rewrite gt_apps.eqb_refl, lookup_insert_ne; [done|].
    intros ->. contradiction.
Qed.

Lemma touches_env a keys (w : @world Env) e : touches a keys w (set_env e w).
Proof. split; auto. Qed.

(** A computation that only touches [keys] of [a], however it ends. *)
Definition confined {A} (a : app) (keys : list string) (m : M A) : Prop :=
  forall w : @world Env, touches a keys w (after (m w)).

Lemma confined_bind {A B} a keys (m : M A) (k : A -> M B) :
  confined a keys m -> (forall x, confined a keys (k x)) -> confined a keys (bind m k).
Proof.
  intros Hm Hk w. unfold bind. cbn. destruct (out (m w)) eqn:E; cbn; [|apply Hm].
  eapply touches_trans; [apply Hm | apply Hk].
Qed.

Lemma confined_try {A B} a keys (m : M A) catches (h : M B) (k : A -> M B) :
  confined a keys m -> confined a keys h -> (forall x, confined a keys (k x)) ->
  confined a keys (try_except m catches h k).
Proof.
  intros Hm Hh Hk w. unfold try_except. cbn. destruct (out (m w)) eqn:E; cbn.
  - eapply touches_trans; [apply Hm | apply Hk].
  - destruct (catches e); cbn; [|apply Hm].
    eapply touches_trans; [apply Hm | apply Hh].
Qed.

(** Computations that leave every parameter as it is. *)
Definition keeps_pars {A} (m : M A) : Prop :=
  forall w : @world Env, pars (after (m w)) = pars w.

Lemma keeps_confined {A} a keys (m : M A) : keeps_pars m -> confined a keys m.
Proof. intros H w. split; intros; by rewrite H. Qed.

Lemma keeps_ret {A} (x : A) : keeps_pars (ret (Env := Env) x).
Proof. by intros w. Qed.
Lemma keeps_raise {A} e : keeps_pars (raise (Env := Env) (A := A) e).
Proof. by intros w. Qed.
Lemma keeps_emit e : keeps_pars (emit (Env := Env) e).
Proof. by intros w. Qed.
Lemma keeps_getitem d k : keeps_pars (getitem (Env := Env) d k).
Proof. intros w. unfold getitem. by destruct (d !! k). Qed.
Lemma keeps_self_commonConf self k : keeps_pars (self_commonConf (Env := Env) self k).
Proof. unfold self_commonConf. destruct (commonConf self); [apply keeps_getitem|apply keeps_raise]. Qed.
Lemma keeps_self_analysisConf self k : keeps_pars (self_analysisConf (Env := Env) self k).
Proof. unfold self_analysisConf. destruct (analysisConf self); [apply keeps_getitem|apply keeps_raise]. Qed.
Lemma keeps_concat_r v s : keeps_pars (concat_r (Env := Env) v s).
Proof. intros w. by destruct v. Qed.
Lemma keeps_concat_l s v : keeps_pars (concat_l (Env := Env) s v).
Proof. intros w. by destruct v. Qed.
Lemma keeps_py_float v : keeps_pars (py_float (Env := Env) v).
Proof. by intros w. Qed.
Lemma keeps_runCommand a run : keeps_pars (runCommand a run).
Proof. by intros w. Qed.
Lemma keeps_change_env f : keeps_pars (change_env (Env := Env) f).
Proof. by intros w. Qed.
Lemma keeps_bind {A B} (m : M A) (k : A -> M B) :
  keeps_pars m -> (forall x, keeps_pars (k x)) -> keeps_pars (bind m k).
Proof.
  intros Hm Hk w. unfold bind. cbn. destruct (out (m w)); cbn; [|apply Hm].
  by rewrite Hk, Hm.
Qed.
Lemma keeps_try {A B} (m : M A) catches (h : M B) (k : A -> M B) :
  keeps_pars m -> keeps_pars h -> (forall x, keeps_pars (k x)) ->
  keeps_pars (try_except m catches h k).
Proof.
  intros Hm Hh Hk w. unfold try_except. cbn. destruct (out (m w)); cbn.
  - by rewrite Hk, Hm.
  - destruct (catches e); cbn; [by rewrite Hh, Hm | apply Hm].
Qed.
Lemma keeps_checkForFiles files : keeps_pars (checkForFiles files).
Proof.
  intros w. unfold checkForFiles, bind, emit. cbn. by destruct (forallb _ files).
Qed.
Lemma keeps_generateXMLmodel_call b : keeps_pars (generateXMLmodel_call b).
Proof.
  intros w. unfold generateXMLmodel_call, bind, emit. cbn.
  by destruct (generateXMLmodel_util b (env w)) as [[[]|?] ?].
Qed.
Lemma keeps_base_plus self s : keeps_pars (base_plus (Env := Env) self s).
Proof. apply keeps_bind; [apply keeps_self_commonConf | intros; apply keeps_concat_r]. Qed.
Lemma keeps_npix_of self b : keeps_pars (npix_of self b).
Proof.
  apply keeps_bind; [apply keeps_self_analysisConf | intros].
  apply keeps_bind; [apply keeps_py_float | intros; apply keeps_ret].
Qed.

Lemma confined_setpar a keys k v :
  In k keys -> confined a keys (setpar (Env := Env) a k v).
Proof. intros Hin w. by apply touches_setpar. Qed.

Ltac in_keys := cbn; repeat (first [left; reflexivity | right]).

Ltac keeps :=
  repeat first
    [ apply keeps_bind; [|intros]
    | apply keeps_try; [| |intros]
    | apply keeps_ret | apply keeps_raise | apply keeps_emit
    | apply keeps_self_commonConf | apply keeps_self_analysisConf
    | apply keeps_getitem | apply keeps_concat_r | apply keeps_concat_l
    | apply keeps_py_float | apply keeps_runCommand | apply keeps_change_env
    | apply keeps_checkForFiles | apply keeps_generateXMLmodel_call
    | apply keeps_base_plus | apply keeps_npix_of ].

Ltac confine :=
  repeat first
    [ apply confined_bind; [|intros]
    | apply confined_try; [| |intros]
    | apply confined_setpar; in_keys
    | apply keeps_confined; solve [keeps] ].

Lemma runCMAP_confined self run bin_size :
  confined gt_apps.evtbin runCMAP_keys (runCMAP self run bin_size).
Proof. unfold runCMAP. confine. Qed.

Lemma runCCUBE_energy self run bin_size nbins (w : @world Env) :
  post (runCCUBE self run bin_size nbins) w (fun o w' _ =>
    o = Returns tt ->
    exists a emin emax,
      analysisConf self = Some a /\ a !! "emin" = Some emin /\ a !! "emax" = Some emax /\
      pars w' gt_apps.evtbin !! "ebinalg" = Some (VStr "LOG") /\
      pars w' gt_apps.evtbin !! "emin" = Some emin /\
      pars w' gt_apps.evtbin !! "emax" = Some emax /\
      pars w' gt_apps.evtbin !! "enumbins" = Some nbins).
Proof.
  unfold runCCUBE. wp; try discriminate.
  intros _. cbn. eexists _, _, _. repeat split; try eassumption; by simplify_map_eq.
Qed.

(** C10. [runCMAP] writes only the eleven keys evfile, outfile, algorithm,
    nxpix, nypix, binsz, coordsys, xref, yref, axisrot and proj of [evtbin]:
    every other entry of [evtbin] and every other object is as before,
    however the call ends.  In particular ebinalg, emin, emax and enumbins
    keep the values they had, so after a [runCCUBE] that returned they are
    still the ones [runCCUBE] wrote. *)
Theorem runCMAP_leaves_energy_binning self run bin_size (w : @world Env) :
  let r := runCMAP self run bin_size w in
  (forall k, ~ In k runCMAP_keys ->
     pars (after r) gt_apps.evtbin !! k = pars w gt_apps.evtbin !! k) /\
  (forall a, a <> gt_apps.evtbin -> pars (after r) a = pars w a) /\
  (forall k, In k ["ebinalg"; "emin"; "emax"; "enumbins"] ->
     pars (after r) gt_apps.evtbin !! k = pars w gt_apps.evtbin !! k) /\
  (forall run0 bin_size0 nbins w0,
     w = after (runCCUBE self run0 bin_size0 nbins w0) ->
     out (runCCUBE self run0 bin_size0 nbins w0) = Returns tt ->
     exists a emin emax,
       analysisConf self = Some a /\ a !! "emin" = Some emin /\ a !! "emax" = Some emax /\
       pars (after r) gt_apps.evtbin !! "ebinalg" = Some (VStr "LOG") /\
       pars (after r) gt_apps.evtbin !! "emin" = Some emin /\
       pars (after r) gt_apps.evtbin !! "emax" = Some emax /\
       pars (after r) gt_apps.evtbin !! "enumbins" = Some nbins).
Proof.
  intros r. destruct (runCMAP_confined self run bin_size w) as [Hother Hkeys].
  fold r in Hother, Hkeys.
  assert (Henergy : forall k, In k ["ebinalg"; "emin"; "emax"; "enumbins"] ->
            pars (after r) gt_apps.evtbin !! k = pars w gt_apps.evtbin !! k).
  { intros k Hk. apply Hkeys. intros Hin. cbn in Hk, Hin.
    destruct Hk as [<-|[<-|[<-|[<-|[]]]]];
      repeat (destruct Hin as [Hin|Hin]; [discriminate Hin|]); exact Hin. }
  repeat split; auto.
  intros run0 bin_size0 nbins w0 -> Hret.
  destruct (runCCUBE_energy self run0 bin_size0 nbins w0 Hret)
    as (a & emin & emax & Ha & Hemin & Hemax & H1 & H2 & H3 & H4).
  exists a, emin, emax. repeat split; auto.
  all: rewrite Henergy; [assumption | in_keys].
Qed.

(** ** The parameters of [runSelect] and [runLTCube] *)

Lemma runSelect_confined self run convtype :
  confined gt_apps.filter runSelect_keys (runSelect self run convtype).
Proof. unfold runSelect. confine. Qed.

(** With the keys it reads in place, [runSelect] returns, having written the
    twelve parameters in the order of the source and handed [filter] to
    [runCommand]. *)
Lemma runSelect_run self run convtype (w : @world Env) c a b
    evclass rad ra dec tmin tmax emin emax zmax :
  commonConf self = Some c -> analysisConf self = Some a ->
  c !! "base" = Some (VStr b) -> c !! "eventclass" = Some evclass ->
  a !! "rad" = Some rad -> a !! "ra" = Some ra -> a !! "dec" = Some dec ->
  a !! "tmin" = Some tmin -> a !! "tmax" = Some tmax ->
  a !! "emin" = Some emin -> a !! "emax" = Some emax -> a !! "zmax" = Some zmax ->
  post (runSelect self run convtype) w (fun o w' d =>
    o = Returns tt /\
    pars w' gt_apps.filter =
      <["convtype" := convtype]> (<["zmax" := zmax]> (<["emax" := emax]>
      (<["emin" := emin]> (<["tmax" := tmax]> (<["tmin" := tmin]>
      (<["dec" := dec]> (<["ra" := ra]>
      (<["outfile" := VStr (b +:+ "_filtered.fits")]>
      (<["infile" := VStr ("@" +:+ b +:+ ".list")]>
      (<["evclass" := evclass]> (<["rad" := rad]>
      (pars w gt_apps.filter)))))))))))) /\
    d = [EvRunCommand gt_apps.filter (pars w' gt_apps.filter) run]).
Proof.
  intros. unfold runSelect. wp. read_world. auto.
Qed.

Lemma runLTCube_fixed self run zmax (w : @world Env) :
  post (runLTCube self run zmax) w (fun o w' _ =>
    o = Returns tt ->
    pars w' gt_apps.expCube !! "dcostheta" = Some (VFloat 0.025%float) /\
    pars w' gt_apps.expCube !! "binsz" = Some (VInt 1)).
Proof.
  unfold runLTCube. wp; try discriminate.
  intros _. read_world. by simplify_map_eq.
Qed.

Lemma runLTCube_returns self run zmax (w : @world Env) c b :
  commonConf self = Some c -> c !! "base" = Some (VStr b) ->
  out (runLTCube self run zmax w) = Returns tt.
Proof.
  intros Hc Hb.
  change (post (runLTCube self run zmax) w (fun o _ _ => o = Returns tt)).
  unfold runLTCube. wp. reflexivity.
Qed.

(** C5. [runSelect] assigns exactly the keys rad, evclass, infile, outfile,
    ra, dec, tmin, tmax, emin, emax, zmax and convtype of [filter], from the
    analysis and common configuration, convtype from its argument, whose
    default is -1; [runLTCube] assigns dcostheta=0.025 and binsz=1 whatever
    the configuration says. *)
Theorem runSelect_runLTCube_parameters self run convtype (w : @world Env) c a b
    evclass rad ra dec tmin tmax emin emax zmax :
  commonConf self = Some c -> analysisConf self = Some a ->
  c !! "base" = Some (VStr b) -> c !! "eventclass" = Some evclass ->
  a !! "rad" = Some rad -> a !! "ra" = Some ra -> a !! "dec" = Some dec ->
  a !! "tmin" = Some tmin -> a !! "tmax" = Some tmax ->
  a !! "emin" = Some emin -> a !! "emax" = Some emax -> a !! "zmax" = Some zmax ->
  let r := runSelect self run convtype w in
  out r = Returns tt /\
  pars (after r) gt_apps.filter =
    <["convtype" := convtype]> (<["zmax" := zmax]> (<["emax" := emax]>
    (<["emin" := emin]> (<["tmax" := tmax]> (<["tmin" := tmin]>
    (<["dec" := dec]> (<["ra" := ra]>
    (<["outfile" := VStr (b +:+ "_filtered.fits")]>
    (<["infile" := VStr ("@" +:+ b +:+ ".list")]>
    (<["evclass" := evclass]> (<["rad" := rad]>
    (pars w gt_apps.filter)))))))))))) /\
  (forall k, ~ In k runSelect_keys ->
     pars (after r) gt_apps.filter !! k = pars w gt_apps.filter !! k) /\
  (forall a', a' <> gt_apps.filter -> pars (after r) a' = pars w a') /\
  default_convtype = VInt (-1) /\
  (forall run' zmax' (w' : @world Env),
     let r' := runLTCube self run' zmax' w' in
     out r' = Returns tt /\
     pars (after r') gt_apps.expCube !! "dcostheta" = Some (VFloat 0.025%float) /\
     pars (after r') gt_apps.expCube !! "binsz" = Some (VInt 1)) /\
  (forall self' run' zmax' (w' : @world Env),
     let r' := runLTCube self' run' zmax' w' in
     out r' = Returns tt ->
     pars (after r') gt_apps.expCube !! "dcostheta" = Some (VFloat 0.025%float) /\
     pars (after r') gt_apps.expCube !! "binsz" = Some (VInt 1)).
Proof.
  intros Hc Ha Hb Hev Hrad Hra Hdec Htmin Htmax Hemin Hemax Hzmax r.
  destruct (runSelect_run self run convtype w c a b evclass rad ra dec tmin tmax
              emin emax zmax Hc Ha Hb Hev Hrad Hra Hdec Htmin Htmax Hemin Hemax Hzmax)
    as (Hout & Hpars & _).
  destruct (runSelect_confined self run convtype w) as [Hother Hkeys].
  repeat split; auto.
  - eapply runLTCube_returns; eauto.
  - apply runLTCube_fixed. eapply runLTCube_returns; eauto.
  - apply runLTCube_fixed. eapply runLTCube_returns; eauto.
  - by apply runLTCube_fixed.
  - by apply runLTCube_fixed.
Qed.

(** ** File checks *)

(** C2. [runAll] looks for <base>.list and <base>_SC.fits before anything
    else: every run starts with the announcement and the check of exactly
    these two files.  If one of them is missing it logs the critical message
    and returns: the world is as before and no command has been issued. *)
Theorem runAll_checks_files_first self run (w : @world Env) c b :
  commonConf self = Some c -> c !! "base" = Some (VStr b) ->
  let r := runAll self run w in
  let files := [b +:+ ".list"; b +:+ "_SC.fits"] in
  (exists rest,
     did r = EvInfo "***Checking for files***" :: EvCheckForFiles files :: rest) /\
  (file_exists (env w) (b +:+ ".list") = false \/
   file_exists (env w) (b +:+ "_SC.fits") = false ->
   out r = Returns tt /\ after r = w /\
   did r = [EvInfo "***Checking for files***"; EvCheckForFiles files;
            EvCritical missing_files_msg] /\
   issued (did r) = []).
Proof.
  intros Hc Hb r files. subst r.
  change (post (runAll self run) w (fun o w' d =>
    (exists rest,
       d = EvInfo "***Checking for files***" :: EvCheckForFiles files :: rest) /\
    (file_exists (env w) (b +:+ ".list") = false \/
     file_exists (env w) (b +:+ "_SC.fits") = false ->
     o = Returns tt /\ w' = w /\
     d = [EvInfo "***Checking for files***"; EvCheckForFiles files;
          EvCritical missing_files_msg] /\
     issued d = []))).
  unfold runAll. wp.
  - (* both files are there: whatever the rest of the run does follows the check *)
    assert (Hhere : ~ (file_exists (env w) (t0 +:+ ".list") = false \/
                       file_exists (env w) (t0 +:+ "_SC.fits") = false)).
    { cbn in H. intros [Hm|Hm]; rewrite Hm in H; cbn in H;
        [discriminate | by rewrite andb_false_r in H]. }
    apply post_any. intros [[]|e] w1 d1;
      [apply post_any; intros o2 w2 d2|];
      (split; [eexists; cbn; reflexivity | intros Hmiss; contradiction]).
  - (* a file is missing *)
    split; [eexists; reflexivity|]. intros _. auto.
Qed.

(** C7. [runSrcMaps] looks for <base>_CCUBE.fits, <base>_ltcube.fits,
    <base>_BinnedExpMap.fits and <base>_SC.fits before it touches [srcMaps]:
    if one of them is missing (in the directory as [generateXMLmodel] left
    it) no parameter of any object has changed and no command has been
    issued, and when [generateXMLmodel] itself returned or only missed its
    files, the method logs the critical message and returns. *)
Theorem runSrcMaps_missing_files self run (w : @world Env) c b :
  commonConf self = Some c -> c !! "base" = Some (VStr b) ->
  let g := generateXMLmodel_util (VStr b) (env w) in
  let files := [b +:+ "_CCUBE.fits"; b +:+ "_ltcube.fits";
                b +:+ "_BinnedExpMap.fits"; b +:+ "_SC.fits"] in
  let r := runSrcMaps self run w in
  forallb (file_exists g.2) files = false ->
  pars (after r) = pars w /\
  issued (did r) = [] /\
  (g.1 = Returns tt ->
   out r = Returns tt /\
   did r = [EvGenerateXMLmodel (VStr b); EvCheckForFiles files;
            EvCritical missing_files_msg]) /\
  (g.1 = Raises FileNotFound ->
   out r = Returns tt /\
   did r = [EvGenerateXMLmodel (VStr b); EvCritical missing_files_msg;
            EvCheckForFiles files; EvCritical missing_files_msg]).
Proof.
  intros Hc Hb g files r Hmiss. subst r.
  change (post (runSrcMaps self run) w (fun o w' d =>
    pars w' = pars w /\ issued d = [] /\
    (g.1 = Returns tt ->
     o = Returns tt /\
     d = [EvGenerateXMLmodel (VStr b); EvCheckForFiles files;
          EvCritical missing_files_msg]) /\
    (g.1 = Raises FileNotFound ->
     o = Returns tt /\
     d = [EvGenerateXMLmodel (VStr b); EvCritical missing_files_msg;
          EvCheckForFiles files; EvCritical missing_files_msg]))).
  unfold runSrcMaps. wp.
  all: subst g files; cbn [env set_env] in *.
  all: try (exfalso; congruence).
  all: repeat split; try reflexivity; intros; try congruence; auto.
Qed.

(** ** Strings *)

Lemma append_assoc (a b c : string) : (a +:+ b) +:+ c = a +:+ (b +:+ c).
Proof. induction a as [|x a IH]; [reflexivity|]. change (String x ((a +:+ b) +:+ c) = String x (a +:+ (b +:+ c))). by rewrite IH. Qed.

(** ** The order of the commands *)

Lemma issued_app d1 d2 : issued (d1 ++ d2) = issued d1 ++ issued d2.
Proof. unfold issued. apply omap_app. Qed.

Lemma quiet_app d1 d2 : quiet (d1 ++ d2) -> quiet d1 /\ quiet d2.
Proof.
  intros H. split; intros msg Hin; apply (H msg); apply in_or_app; auto.
Qed.

(** A computation that issues no command. *)
Definition silent {A} (m : M A) : Prop :=
  forall w : @world Env, issued (did (m w)) = [].

Lemma silent_ret {A} (x : A) : silent (ret (Env := Env) x).
Proof. by intros w. Qed.
Lemma silent_raise {A} e : silent (raise (Env := Env) (A := A) e).
Proof. by intros w. Qed.
Lemma silent_emit e : issued_by e = None -> silent (emit (Env := Env) e).
Proof. intros H w. cbn. by rewrite H. Qed.
Lemma silent_setpar a k v : silent (setpar (Env := Env) a k v).
Proof. by intros w. Qed.
Lemma silent_change_env f : silent (change_env (Env := Env) f).
Proof. by intros w. Qed.
Lemma silent_getitem d k : silent (getitem (Env := Env) d k).
Proof. intros w. unfold getitem. by destruct (d !! k). Qed.
Lemma silent_self_commonConf self k : silent (self_commonConf (Env := Env) self k).
Proof. unfold self_commonConf. destruct (commonConf self); [apply silent_getitem|apply silent_raise]. Qed.
Lemma silent_self_analysisConf self k : silent (self_analysisConf (Env := Env) self k).
Proof. unfold self_analysisConf. destruct (analysisConf self); [apply silent_getitem|apply silent_raise]. Qed.
Lemma silent_concat_r v s : silent (concat_r (Env := Env) v s).
Proof. intros w. by destruct v. Qed.
Lemma silent_concat_l s v : silent (concat_l (Env := Env) s v).
Proof. intros w. by destruct v. Qed.
Lemma silent_py_float v : silent (py_float (Env := Env) v).
Proof. by intros w. Qed.
Lemma silent_bind {A B} (m : M A) (k : A -> M B) :
  silent m -> (forall x, silent (k x)) -> silent (bind m k).
Proof.
  intros Hm Hk w. unfold bind. cbn. destruct (out (m w)); cbn; [|apply Hm].
  by rewrite issued_app, Hm, Hk.
Qed.
Lemma silent_try {A B} (m : M A) catches (h : M B) (k : A -> M B) :
  silent m -> silent h -> (forall x, silent (k x)) -> silent (try_except m catches h k).
Proof.
  intros Hm Hh Hk w. unfold try_except. cbn. destruct (out (m w)); cbn.
  - by rewrite issued_app, Hm, Hk.
  - destruct (catches e); cbn; [by rewrite issued_app, Hm, Hh | apply Hm].
Qed.
Lemma silent_checkForFiles files : silent (checkForFiles files).
Proof.
  intros w. unfold checkForFiles, bind, emit. cbn. by destruct (forallb _ files).
Qed.
Lemma silent_generateXMLmodel_call b : silent (generateXMLmodel_call b).
Proof.
  intros w. unfold generateXMLmodel_call, bind, emit. cbn.
  by destruct (generateXMLmodel_util b (env w)) as [[[]|?] ?].
Qed.

Ltac silence :=
  repeat first
    [ apply silent_bind; [|intros]
    | apply silent_try; [| |intros]
    | apply silent_ret | apply silent_raise
    | apply silent_emit; reflexivity
    | apply silent_setpar | apply silent_change_env
    | apply silent_self_commonConf | apply silent_self_analysisConf
    | apply silent_getitem | apply silent_concat_r | apply silent_concat_l
    | apply silent_py_float | apply silent_checkForFiles
    | apply silent_generateXMLmodel_call
    | progress unfold base_plus, npix_of, generateXMLmodel, logger_info,
        logger_critical, py_print ].

(** [obeys strict c m]: the commands [m] issues are, in order, among those
    of [c]; and, when [strict], a run that returns without a critical
    message has issued all of [c]. *)
Definition obeys {A} (strict : bool) (c : list tool) (m : M A) : Prop :=
  forall w : @world Env,
    sublist (issued (did (m w))) c /\
    (strict = true -> (exists a, out (m w) = Returns a) -> quiet (did (m w)) ->
     issued (did (m w)) = c).

Lemma obeys_silent {A} s (m : M A) : silent m -> obeys s [] m.
Proof. intros H w. rewrite H. split; [constructor | reflexivity]. Qed.


Lemma obeys_raise {A} s c e : obeys s c (raise (Env := Env) (A := A) e).
Proof.
  intros w. cbn. split; [apply sublist_nil_l|]. intros _ [a Ha]. discriminate.
Qed.

Lemma obeys_bind {A B} s c1 c2 (m : M A) (k : A -> M B) :
  obeys s c1 m -> (forall x, obeys s c2 (k x)) -> obeys s (c1 ++ c2) (bind m k).
Proof.
  intros Hm Hk w. destruct (Hm w) as [Hsub1 Hex1]. unfold bind. cbn.
  destruct (out (m w)) as [a|e] eqn:E; cbn.
  - destruct (Hk a (after (m w))) as [Hsub2 Hex2]. rewrite issued_app. split.
    + by apply sublist_app.
    + intros Hs Hret Hq. apply quiet_app in Hq as [Hq1 Hq2].
      rewrite Hex1, Hex2; eauto.
  - split; [by apply sublist_inserts_r|]. intros _ [a Ha]. discriminate.
Qed.


Lemma obeys_runCommand s a run : obeys s [tool_of a] (runCommand a run).
Proof. intros w. cbn. split; [reflexivity | reflexivity]. Qed.


(** A run-method that fills a dictionary and ends in [runCommand]. *)
Ltac obey_dict :=
  repeat (apply (obeys_bind _ [] _); [apply obeys_silent; solve [silence] | intros]);
  apply obeys_runCommand.

Lemma runCMAP_obeys s self run bs : obeys s [gtbin] (runCMAP self run bs).
Proof. unfold runCMAP. obey_dict. Qed.





(** ** The shape of a run-method *)

(** [hands_over a run m]: [m] changes the parameters of no object but [a];
    when it returns, the one thing it did to the outside is one call of
    [runCommand] on [a], with the parameters as it left them; when it
    raises, it did nothing to the outside. *)
Definition hands_over {A} (a : app) (run : bool) (m : M A) : Prop :=
  forall w : @world Env,
    (forall b, b <> a -> pars (after (m w)) b = pars w b) /\
    match out (m w) with
    | Returns _ => did (m w) = [EvRunCommand a (pars (after (m w)) a) run]
    | Raises _ => did (m w) = []
    end.

Ltac others_kept :=
  let b := fresh "b" in let Hb := fresh "Hb" in
  intros b Hb;
  repeat first [rewrite pars_set_env | rewrite pars_set_par_other by exact Hb];
  reflexivity.

Ltac hand_over a run :=
  let w := fresh "w" in
  intros w;
  lazymatch goal with
  | |- _ /\ match out (?m w) with _ => _ end =>
      change (post m w (fun o w' d =>
        (forall b, b <> a -> pars w' b = pars w b) /\
        match o with
        | Returns _ => d = [EvRunCommand a (pars w' a) run]
        | Raises _ => d = []
        end))
  end.

Lemma runSelect_hands_over self run convtype :
  hands_over gt_apps.filter run (runSelect self run convtype).
Proof. hand_over gt_apps.filter run. unfold runSelect. wp; (split; [others_kept | reflexivity]). Qed.

Lemma runGTI_hands_over self run fs roi :
  hands_over gt_apps.maketime run (runGTI self run fs roi).
Proof. hand_over gt_apps.maketime run. unfold runGTI. wp; (split; [others_kept | reflexivity]). Qed.

Lemma runLTCube_hands_over self run zmax :
  hands_over gt_apps.expCube run (runLTCube self run zmax).
Proof. hand_over gt_apps.expCube run. unfold runLTCube. wp; (split; [others_kept | reflexivity]). Qed.

Lemma runExpMap_hands_over self run :
  hands_over gt_apps.expMap run (runExpMap self run).
Proof. hand_over gt_apps.expMap run. unfold runExpMap. wp; (split; [others_kept | reflexivity]). Qed.

Lemma runCCUBE_hands_over self run bs nb :
  hands_over gt_apps.evtbin run (runCCUBE self run bs nb).
Proof. hand_over gt_apps.evtbin run. unfold runCCUBE. wp; (split; [others_kept | reflexivity]). Qed.


Lemma runExpCube_shape self run bs nb (w : @world Env) :
  let r := runExpCube self run bs nb w in
  pars (after r) = pars w /\
  match out r with
  | Returns _ =>
      exists cmd, did r = if run then [EvOsSystem cmd; EvInfo cmd] else [EvPrint cmd]
  | Raises _ => did r = []
  end.
Proof.
  intros r. subst r.
  change (post (runExpCube self run bs nb) w (fun o w' d =>
    pars w' = pars w /\
    match o with
    | Returns _ =>
        exists cmd, d = if run then [EvOsSystem cmd; EvInfo cmd] else [EvPrint cmd]
    | Raises _ => d = []
    end)).
  unfold runExpCube. wp; (split; [reflexivity | try reflexivity]).
  all: eexists; reflexivity.
Qed.

(** ** The constructor *)

(** The errors after which the constructor returns early: the configuration
    file is not found, or one of the two checks of a dictionary raises
    [KeyError]. *)
Definition config_error (base : string) (analysisConfig commonConfig : conf)
    (e : Env) : bool :=
  match readConfig_util base e with
  | Raises FileNotFound => true
  | Raises _ => false
  | Returns (commonConfigRead, analysisConfigRead, _, _) =>
      match checkConfig_util (<["base" := VStr base]> commonConfig) commonConfigRead with
      | Raises (KeyError _) => true
      | Raises _ => false
      | Returns _ =>
          match checkConfig_util analysisConfig analysisConfigRead with
          | Raises (KeyError _) => true
          | _ => false
          end
      end
  end.

(** Every method that reads the configuration raises [AttributeError]. *)
Definition unusable (self : quickAnalysis) : Prop :=
  forall run (w : @world Env) v1 v2,
    let fails {A} (m : M A) := exists attr, out (m w) = Raises (AttributeError attr) in
    fails (runSelect self run v1) /\ fails (runGTI self run v1 v2) /\
    fails (runLTCube self run v1) /\ fails (runExpMap self run) /\
    fails (runCCUBE self run v1 v2) /\ fails (runCMAP self run v1) /\
    fails (runExpCube self run v1 v2) /\ fails (runSrcMaps self run) /\
    fails (runModel self run) /\ fails (writeConfig self) /\
    fails (runAll self run).

Ltac attribute_error m w :=
  change (post m w (fun o _ _ => exists attr, o = Raises (AttributeError attr)));
  unfold runSelect, runGTI, runLTCube, runExpMap, runCCUBE, runCMAP, runExpCube,
    runSrcMaps, runModel, runAll;
  wp; eexists; reflexivity.

Lemma no_configuration_unusable self :
  commonConf self = None -> analysisConf self = None -> unusable self.
Proof.
  intros Hc Ha run w v1 v2. cbn zeta.
  repeat split.
  - attribute_error (runSelect self run v1) w.
  - attribute_error (runGTI self run v1 v2) w.
  - attribute_error (runLTCube self run v1) w.
  - attribute_error (runExpMap self run) w.
  - attribute_error (runCCUBE self run v1 v2) w.
  - attribute_error (runCMAP self run v1) w.
  - attribute_error (runExpCube self run v1 v2) w.
  - attribute_error (runSrcMaps self run) w.
  - attribute_error (runModel self run) w.
  - unfold writeConfig. rewrite Hc. eexists. reflexivity.
  - attribute_error (runAll self run) w.
Qed.


(** What the constructor does when it reads the configuration file, by the
    outcomes of [readConfig] and of the two calls of [checkConfig]. *)
Lemma init_outcome base analysisConfig commonConfig (w : @world Env) :
  let r := __init__ base true analysisConfig commonConfig w in
  if config_error base analysisConfig commonConfig (env w)
  then out r = Returns (QuickAnalysis base None None)
  else forall self, out r = Returns self ->
         exists c a, commonConf self = Some c /\ analysisConf self = Some a.
Proof.
  unfold __init__, config_error, readConfig, checkConfig, try_except, bind,
    emit, logger_critical, logger_info, ret.
  cbn.
  destruct (readConfig_util base (env w)) as [[[[cr ar] lr] pr]|e]; cbn.
  2: { destruct e; cbn; try reflexivity; intros self H; discriminate. }
  destruct (checkConfig_util (<["base" := VStr base]> commonConfig) cr) as [c|e]; cbn.
  2: { destruct e; cbn; try reflexivity; intros self H; discriminate. }
  destruct (checkConfig_util analysisConfig ar) as [a|e]; cbn.
  2: { destruct e; cbn; try reflexivity; intros self H; discriminate. }
  intros self H. injection H as <-. cbn. eauto.
Qed.

(** C9. Constructed with [configFile=True], when the configuration file is
    not found or a check of either dictionary raises [KeyError], the
    constructor returns an object without [commonConf] and without
    [analysisConf], and every run method called on it fails (with
    [AttributeError]); an object the constructor returns has either
    attribute only when no such error occurred, and then it has both. *)
Theorem constructor_early_return base analysisConfig commonConfig (w : @world Env) :
  let r := __init__ base true analysisConfig commonConfig w in
  (config_error base analysisConfig commonConfig (env w) = true ->
     exists self, out r = Returns self /\
       commonConf self = None /\ analysisConf self = None /\ unusable self) /\
  (forall self, out r = Returns self ->
     is_Some (commonConf self) \/ is_Some (analysisConf self) ->
     config_error base analysisConfig commonConfig (env w) = false /\
     is_Some (commonConf self) /\ is_Some (analysisConf self)) /\
  (forall self, out r = Returns self ->
     config_error base analysisConfig commonConfig (env w) = false ->
     is_Some (commonConf self) /\ is_Some (analysisConf self)).
Proof.
  intros r. pose proof (init_outcome base analysisConfig commonConfig w) as H.
  cbn zeta in H. fold r in H.
  destruct (config_error base analysisConfig commonConfig (env w)).
  - split; [|split].
    + intros _. exists (QuickAnalysis base None None).
      split; [exact H|]. split; [reflexivity|]. split; [reflexivity|].
      by apply no_configuration_unusable.
    + intros self Hr [Hs|Hs]; rewrite H in Hr; injection Hr as <-;
        cbn in Hs; by destruct Hs.
    + intros self _ Hf. discriminate.
  - split; [|split].
    + intros Hf. discriminate.
    + intros self Hr _. split; [reflexivity|].
      destruct (H self Hr) as (c & a & -> & ->). eauto.
    + intros self Hr _. destruct (H self Hr) as (c & a & -> & ->). eauto.
Qed.


(** ** The options [getopt] returns for the option string of [cli] *)

(** The inner loop [do_shorts] of [getopt.getopt], by name. *)
Definition do_shorts (shortopts : string) (rest : list string)
    : string -> outcome (list (string * string) * list string) :=
  fix do_shorts (optstring : string) :=
    match optstring with
    | EmptyString => getopt.getopt rest shortopts
    | String opt optstring' =>
        match getopt.short_has_arg opt shortopts with
        | Raises e => Raises e
        | Returns true =>
            match optstring' with
            | EmptyString =>
                match rest with
                | [] => Raises (getopt.requires_argument (String opt ""))
                | optarg :: rest' =>
                    getopt.add_opt (String "-"%char (String opt ""), optarg)
                                   (getopt.getopt rest' shortopts)
                end
            | _ =>
                getopt.add_opt (String "-"%char (String opt ""), optstring')
                               (getopt.getopt rest shortopts)
            end
        | Returns false =>
            getopt.add_opt (String "-"%char (String opt ""), "") (do_shorts optstring')
        end
    end.

(** An option as ['cm'] allows it: [-c] or [-m], without a value. *)
Definition cm_option (o : string * string) : Prop :=
  (o.1 = "-c" \/ o.1 = "-m") /\ o.2 = "".

(** A cluster of the options [c] and [m]: [-c], [-m], [-cm], ... *)
Fixpoint only_cm (s : string) : bool :=
  match s with
  | EmptyString => true
  | String c rest => (Ascii.eqb c "c" || Ascii.eqb c "m") && only_cm rest
  end.

Definition cm_cluster (a : string) : bool :=
  match a with
  | String d (String c s) => Ascii.eqb d "-" && only_cm (String c s)
  | _ => false
  end.

Ltac by_bits c :=
  let H := fresh in
  intros H; destruct c as [[] [] [] [] [] [] [] []];
  try reflexivity; exfalso; apply H; reflexivity.

Lemma getopt_operand c s rest shortopts :
  c <> "-"%char ->
  getopt.getopt (String c s :: rest) shortopts = Returns ([], String c s :: rest).
Proof. by_bits c. Qed.

Lemma getopt_shorts c s rest shortopts :
  c <> "-"%char ->
  getopt.getopt (String "-" (String c s) :: rest) shortopts =
  do_shorts shortopts rest (String c s).
Proof. by_bits c. Qed.

Lemma do_shorts_cons shortopts rest opt optstring :
  do_shorts shortopts rest (String opt optstring) =
  match getopt.short_has_arg opt shortopts with
  | Raises e => Raises e
  | Returns true =>
      match optstring with
      | EmptyString =>
          match rest with
          | [] => Raises (getopt.requires_argument (String opt ""))
          | optarg :: rest' =>
              getopt.add_opt (String "-"%char (String opt ""), optarg)
                             (getopt.getopt rest' shortopts)
          end
      | _ =>
          getopt.add_opt (String "-"%char (String opt ""), optstring)
                         (getopt.getopt rest shortopts)
      end
  | Returns false =>
      getopt.add_opt (String "-"%char (String opt ""), "")
                     (do_shorts shortopts rest optstring)
  end.
Proof. reflexivity. Qed.

Lemma short_has_arg_cm opt b :
  getopt.short_has_arg opt "cm" = Returns b ->
  b = false /\ (opt = "c" \/ opt = "m")%char.
Proof.
  cbn. destruct (Ascii.eqb_spec opt "c") as [->|_]; cbn.
  { intros [= <-]. auto. }
  destruct (Ascii.eqb_spec opt "m") as [->|_]; cbn.
  { intros [= <-]. auto. }
  discriminate.
Qed.

Lemma do_shorts_cm rest :
  (forall opts r, getopt.getopt rest "cm" = Returns (opts, r) -> Forall cm_option opts) ->
  forall optstring opts r,
    do_shorts "cm" rest optstring = Returns (opts, r) -> Forall cm_option opts.
Proof.
  intros IH. induction optstring as [|opt optstring IHo]; intros opts r H.
  { exact (IH opts r H). }
  rewrite do_shorts_cons in H.
  destruct (getopt.short_has_arg opt "cm") as [b|e] eqn:E; [|discriminate].
  apply short_has_arg_cm in E as [-> Hopt].
  destruct (do_shorts "cm" rest optstring) as [[o' r']|e] eqn:E'; [|discriminate].
  cbn in H. injection H as <- <-. constructor.
  - split; [|reflexivity]. cbn. destruct Hopt as [-> | ->]; auto.
  - eapply IHo. reflexivity.
Qed.

Lemma getopt_cm_options args :
  forall opts rest,
    getopt.getopt args "cm" = Returns (opts, rest) -> Forall cm_option opts.
Proof.
  induction args as [|a args IH]; intros opts rest H.
  { cbn in H. injection H as <- <-. constructor. }
  destruct a as [|c s].
  { cbn in H. injection H as <- <-. constructor. }
  destruct (ascii_dec c "-") as [->|Hc].
  2: { rewrite getopt_operand in H by done. injection H as <- <-. constructor. }
  destruct s as [|c2 s2].
  { cbn in H. injection H as <- <-. constructor. }
  destruct (ascii_dec c2 "-") as [->|Hc2].
  { destruct s2; cbn in H; [|discriminate]. injection H as <- <-. constructor. }
  rewrite getopt_shorts in H by done.
  eapply do_shorts_cm; eauto.
Qed.

Lemma do_shorts_raises rest e :
  getopt.getopt rest "cm" = Raises e ->
  forall optstring, only_cm optstring = true ->
    do_shorts "cm" rest optstring = Raises e.
Proof.
  intros Hr. induction optstring as [|opt optstring IHo]; intros H.
  { exact Hr. }
  cbn in H. apply andb_prop in H as [Hopt H].
  rewrite do_shorts_cons, (IHo H).
  apply orb_prop in Hopt as [Hopt|Hopt]; apply Ascii.eqb_eq in Hopt as ->; reflexivity.
Qed.

Lemma getopt_leading_M pre rest :
  forallb cm_cluster pre = true ->
  getopt.getopt (pre ++ "-M" :: rest) "cm" = Raises (getopt.not_recognized "M").
Proof.
  induction pre as [|a pre IH]; intros H.
  { reflexivity. }
  cbn [forallb] in H. apply andb_prop in H as [Ha H].
  destruct a as [|d [|c s]]; try discriminate.
  unfold cm_cluster in Ha. apply andb_prop in Ha as [Hd Hs].
  apply Ascii.eqb_eq in Hd as ->.
  assert (c <> "-"%char) as Hc.
  { intros ->. discriminate. }
  cbn [List.app]. rewrite getopt_shorts by done.
  apply do_shorts_raises; auto.
Qed.

(** With options as ['cm'] allows them, the loop over the options never
    enters the [-M] branch. *)
Lemma cli_opts_without_M on_M on_M' argv args opts (rest : M unit) :
  Forall cm_option opts ->
  cli_opts on_M argv args opts rest = cli_opts on_M' argv args opts rest.
Proof.
  induction 1 as [|[opt val] opts [[Ho|Ho] _] _ IH]; [reflexivity| |];
    cbn in Ho; subst opt; reflexivity.
Qed.

Lemma usage_format cmd :
  py_format usage_text [cmd; cmd; cmd] =
  Raises (TypeError "not enough arguments for format string").
Proof. vm_compute. reflexivity. Qed.

(** The handler of [cli] stops at the formatting of the usage text, which
    has four conversions for three values. *)
Lemma usage_raises a0 argv (w : @world Env) :
  usage (a0 :: argv) w =
  Run (Raises (TypeError "not enough arguments for format string")) w [].
Proof.
  unfold usage, argv_item, bind.
  change ((a0 :: argv) !! 0%nat) with (Some a0).
  unfold ret. cbn [out after did]. rewrite usage_format. reflexivity.
Qed.


(** * Further properties of the script *)

(** ** More rules for one run *)

Lemma post_readConfig base (w : @world Env) Q :
  Q (readConfig_util base (env w)) w [EvReadConfig base] ->
  post (readConfig base) w Q.
Proof.
  unfold post, readConfig, bind, emit. cbn.
  destruct (readConfig_util base (env w)); exact id.
Qed.

Lemma post_checkConfig defaults read (w : @world Env) Q :
  Q (checkConfig_util defaults read) w [EvCheckConfig defaults read] ->
  post (checkConfig defaults read) w Q.
Proof.
  unfold post, checkConfig, bind, emit. cbn.
  destruct (checkConfig_util defaults read); exact id.
Qed.

Lemma post_writeConfig_call c a (w : @world Env) Q :
  Q (Returns tt) (set_env (writeConfig_util c a (env w)) w) [EvWriteConfig c a] ->
  post (writeConfig_call c a) w Q.
Proof. exact id. Qed.

Lemma post_runModel_call b i run (w : @world Env) Q :
  Q (Returns tt) (set_env (runModel_util b i run (env w)) w) [EvRunModel b i run] ->
  post (runModel_call b i run) w Q.
Proof. exact id. Qed.

Lemma post_usage a0 argv (w : @world Env) Q :
  Q (Raises (TypeError "not enough arguments for format string")) w [] ->
  post (usage (a0 :: argv)) w Q.
Proof. unfold post. by rewrite usage_raises. Qed.

(** The constructor without a configuration file. *)
Lemma post_init_plain base analysisConfig commonConfig (w : @world Env) Q :
  (forall msg,
     Q (Returns (QuickAnalysis base (Some (<["base" := VStr base]> commonConfig))
                   (Some analysisConfig)))
       w [EvInitLogger base "quickAnalysis"; EvInfo msg]) ->
  post (__init__ base false analysisConfig commonConfig) w Q.
Proof.
  intros H. unfold __init__. cbn beta iota zeta. wp. cbn [List.app]. apply H.
Qed.

Ltac wp_more :=
  lazymatch goal with
  | |- post (readConfig _) _ _ => apply post_readConfig
  | |- post (checkConfig _ _) _ _ => apply post_checkConfig
  | |- post (writeConfig_call _ _) _ _ => apply post_writeConfig_call
  | |- post (runModel_call _ _ _) _ _ => apply post_runModel_call
  | |- post (usage (_ :: _)) _ _ => apply post_usage
  | |- post (new_quickAnalysis _ false) _ _ =>
      unfold new_quickAnalysis; apply post_init_plain; intros
  | |- post (__init__ _ false _ _) _ _ => apply post_init_plain; intros
  | |- if is_KeyError ?e then _ else _ => destruct e; cbn [is_KeyError]
  | |- if is_usage_error ?e then _ else _ =>
      first [is_var e; destruct e; cbn [is_usage_error] | cbn [is_usage_error]]
  | |- _ => wp_step
  end.

Ltac wp_all := repeat (wp_more; cbn beta iota; try same_lookups).

(** ** The command line *)

(** The handler of [cli] never prints: the usage text has four conversions
    and is given three values, so its formatting raises [TypeError] (and
    with an empty [sys.argv] there is no program name to take). *)
Theorem usage_stops_before_printing argv (w : @world Env) :
  out (usage argv w) =
    Raises (match argv with
            | [] => IndexError
            | _ :: _ => TypeError "not enough arguments for format string"
            end) /\
  after (usage argv w) = w /\ did (usage argv w) = [].
Proof.
  destruct argv as [|a0 argv].
  - repeat split.
  - rewrite usage_raises. repeat split.
Qed.

(** Called without a base name, and not for the example configuration,
    [cli] ends in its handler: nothing is run and nothing changes, and the
    call raises the [TypeError] of the usage text. *)
Theorem cli_without_operand a0 rest opts (w : @world Env) :
  getopt.getopt rest "cm" = Returns (opts, []) ->
  (forall v opts', opts <> ("-c", v) :: opts') ->
  let r := cli (a0 :: rest) w in
  out r = Raises (TypeError "not enough arguments for format string") /\
  after r = w /\
  (forall e, In e (did r) -> exists msg, e = EvPrint msg).
Proof.
  intros H Hc r. pose proof (getopt_cm_options _ _ _ H) as Hopts.
  change (post (cli (a0 :: rest)) w (fun o w' d =>
    o = Raises (TypeError "not enough arguments for format string") /\
    w' = w /\ forall e, In e d -> exists msg, e = EvPrint msg)).
  unfold cli, cli_with. change (drop 1 (a0 :: rest)) with rest. rewrite H.
  destruct opts as [|[o v] opts'].
  - cbn [cli_opts]. wp_all. repeat split. intros e [].
  - inversion Hopts as [|? ? [[Ho|Ho] _] _]; cbn in Ho; subst o.
    + exfalso. eapply Hc. reflexivity.
    + cbn [cli_opts]. change (String.eqb "-m" "-c") with false.
      change (String.eqb "-m" "-M") with false.
      change (String.eqb "-m" "-m") with true. cbn iota.
      wp_all. repeat split. intros e [<-|[]]. eauto.
Qed.

(** With [-c] as the first option, [cli] builds the object for the base
    name "example" without reading a configuration file and writes its two
    dictionaries, the defaults of the constructor; the operands and the
    options that follow are not looked at. *)
Theorem cli_example_configuration a0 rest v opts args (w : @world Env) :
  getopt.getopt rest "cm" = Returns (("-c", v) :: opts, args) ->
  let r := cli (a0 :: rest) w in
  let common := <["base" := VStr "example"]> default_commonConfig in
  out r = Returns tt /\
  pars (after r) = pars w /\
  env (after r) = writeConfig_util common default_analysisConfig (env w) /\
  exists msg,
    did r = [EvPrint "Creating example configuration file called example.cfg";
             EvInitLogger "example" "quickAnalysis"; EvInfo msg;
             EvWriteConfig common default_analysisConfig].
Proof.
  intros H r common.
  change (post (cli (a0 :: rest)) w (fun o w' d =>
    o = Returns tt /\ pars w' = pars w /\
    env w' = writeConfig_util common default_analysisConfig (env w) /\
    exists msg,
      d = [EvPrint "Creating example configuration file called example.cfg";
           EvInitLogger "example" "quickAnalysis"; EvInfo msg;
           EvWriteConfig common default_analysisConfig])).
  unfold cli, cli_with. change (drop 1 (a0 :: rest)) with rest. rewrite H.
  cbn [cli_opts]. change (String.eqb "-c" "-c") with true. cbn iota.
  wp_all. unfold writeConfig. cbn [commonConf analysisConf]. wp_all.
  cbn [List.app]. repeat split. eauto.
Qed.


(** A base name whose configuration file is missing stops [cli]: the
    constructor logs the critical message and returns an object without
    configuration, on which [runAll] raises [AttributeError] right after its
    first log line; the base names that follow are never reached. *)
Theorem cli_missing_configuration a0 c s rest (w : @world Env) :
  c <> "-"%char ->
  readConfig_util (String c s) (env w) = Raises FileNotFound ->
  let r := cli (a0 :: String c s :: rest) w in
  out r = Raises (AttributeError "commonConf") /\ after r = w /\
  did r = [EvInitLogger (String c s) "quickAnalysis"; EvReadConfig (String c s);
           EvCritical missing_files_msg; EvInfo "***Checking for files***"].
Proof.
  intros Hc Hr r.
  change (post (cli (a0 :: String c s :: rest)) w (fun o w' d =>
    o = Raises (AttributeError "commonConf") /\ w' = w /\
    d = [EvInitLogger (String c s) "quickAnalysis"; EvReadConfig (String c s);
         EvCritical missing_files_msg; EvInfo "***Checking for files***"])).
  unfold cli, cli_with.
  change (drop 1 (a0 :: String c s :: rest)) with (String c s :: rest).
  rewrite getopt_operand by exact Hc.
  cbn [cli_opts cli_args]. unfold new_quickAnalysis, __init__. cbn beta iota zeta.
  wp_all; try congruence.
  unfold runAll. wp_all.
  all: cbn [commonConf] in *; try discriminate.
  cbn [List.app]. done.
Qed.

(** With [-m] as the first option and a base name given, the model file is
    made for [sys.argv[2]], whatever stands there: [cli] builds the object
    for it without a configuration file and calls [generateXMLmodel]; no
    parameter of a tool changes. *)
Theorem cli_model_file_base a0 a1 b rest v opts args (w : @world Env) :
  getopt.getopt (a1 :: b :: rest) "cm" = Returns (("-m", v) :: opts, args) ->
  args <> [] ->
  let r := cli (a0 :: a1 :: b :: rest) w in
  pars (after r) = pars w /\
  exists msg more,
    did r = [EvPrint "Creating model file from 2FGL called example_model.xml";
             EvInitLogger b "quickAnalysis"; EvInfo msg;
             EvGenerateXMLmodel (VStr b)] ++ more /\
    issued more = [].
Proof.
  intros H Hargs r.
  change (post (cli (a0 :: a1 :: b :: rest)) w (fun _ w' d =>
    pars w' = pars w /\
    exists msg more,
      d = [EvPrint "Creating model file from 2FGL called example_model.xml";
           EvInitLogger b "quickAnalysis"; EvInfo msg;
           EvGenerateXMLmodel (VStr b)] ++ more /\
      issued more = [])).
  unfold cli, cli_with.
  change (drop 1 (a0 :: a1 :: b :: rest)) with (a1 :: b :: rest). rewrite H.
  cbn [cli_opts]. change (String.eqb "-m" "-c") with false.
  change (String.eqb "-m" "-M") with false.
  change (String.eqb "-m" "-m") with true. cbn iota.
  destruct args as [|arg args]; [contradiction|].
  unfold argv_item. change ((a0 :: a1 :: b :: rest) !! 2%nat) with (Some b).
  wp_all.
  all: cbn [commonConf] in *.
  all: repeat match goal with
       | Hs : Some _ = Some _ |- _ => injection Hs as <-
       | Hl : <["base" := _]> _ !! "base" = _ |- _ => rewrite lookup_insert_eq in Hl
       end.
  all: try discriminate.
  all: same_lookups.
  all: cbn [List.app]; (split; [reflexivity|]); eexists _, _;
       (split; [reflexivity|reflexivity]).
Qed.

(** ** The run-methods *)

(** [runGTI] writes the five parameters scfile, filter, roicut, evfile and
    outfile of [maketime], the filter and the ROI cut as they were passed,
    and hands [maketime] to one [runCommand]; no other object changes. *)
Theorem runGTI_parameters self run filterString roi (w : @world Env) c b :
  commonConf self = Some c -> c !! "base" = Some (VStr b) ->
  let r := runGTI self run filterString roi w in
  out r = Returns tt /\
  pars (after r) gt_apps.maketime =
    <["outfile" := VStr (b +:+ "_filtered_gti.fits")]>
    (<["evfile" := VStr (b +:+ "_filtered.fits")]>
    (<["roicut" := roi]> (<["filter" := filterString]>
    (<["scfile" := VStr (b +:+ "_SC.fits")]> (pars w gt_apps.maketime))))) /\
  did r = [EvRunCommand gt_apps.maketime (pars (after r) gt_apps.maketime) run] /\
  (forall a, a <> gt_apps.maketime -> pars (after r) a = pars w a).
Proof.
  intros Hc Hb r.
  change (post (runGTI self run filterString roi) w (fun o w' d =>
    o = Returns tt /\
    pars w' gt_apps.maketime =
      <["outfile" := VStr (b +:+ "_filtered_gti.fits")]>
      (<["evfile" := VStr (b +:+ "_filtered.fits")]>
      (<["roicut" := roi]> (<["filter" := filterString]>
      (<["scfile" := VStr (b +:+ "_SC.fits")]> (pars w gt_apps.maketime))))) /\
    d = [EvRunCommand gt_apps.maketime (pars w' gt_apps.maketime) run] /\
    (forall a, a <> gt_apps.maketime -> pars w' a = pars w a))).
  unfold runGTI. wp. repeat split. others_kept.
Qed.

(** Without the key base in [commonConf], [runGTI], [runLTCube] and
    [runExpMap] raise [KeyError] at their first statement: nothing has been
    assigned and nothing has been done. *)
Theorem run_methods_need_base self run (w : @world Env) c :
  commonConf self = Some c -> c !! "base" = None ->
  let untouched {A} (r : run_of A) :=
    out r = Raises (KeyError "base") /\ after r = w /\ did r = [] in
  (forall fs roi, untouched (runGTI self run fs roi w)) /\
  (forall zmax, untouched (runLTCube self run zmax w)) /\
  untouched (runExpMap self run w).
Proof.
  intros Hc Hb. cbn zeta. split; [|split]; intros.
  - change (post (runGTI self run fs roi) w (fun o w' d =>
      o = Raises (KeyError "base") /\ w' = w /\ d = [])).
    unfold runGTI. wp; try congruence. done.
  - change (post (runLTCube self run zmax) w (fun o w' d =>
      o = Raises (KeyError "base") /\ w' = w /\ d = [])).
    unfold runLTCube. wp; try congruence. done.
  - change (post (runExpMap self run) w (fun o w' d =>
      o = Raises (KeyError "base") /\ w' = w /\ d = [])).
    unfold runExpMap. wp; try congruence. done.
Qed.

(** [runExpMap] converts the radius after it has written five parameters:
    with a radius that [float] rejects it raises the error of [float], no
    command has been issued, and evfile, scfile, expcube, outfile and irfs
    of [expMap] are already those of this call, while srcrad is as it was. *)
Theorem runExpMap_bad_radius self run (w : @world Env) c a b i rad e :
  commonConf self = Some c -> analysisConf self = Some a ->
  c !! "base" = Some (VStr b) -> c !! "irfs" = Some i ->
  a !! "rad" = Some rad -> float_of_value rad = Raises e ->
  let r := runExpMap self run w in
  out r = Raises e /\ did r = [] /\
  pars (after r) gt_apps.expMap =
    <["irfs" := i]> (<["outfile" := VStr (b +:+ "_expMap.fits")]>
    (<["expcube" := VStr (b +:+ "_ltcube.fits")]>
    (<["scfile" := VStr (b +:+ "_SC.fits")]>
    (<["evfile" := VStr (b +:+ "_filtered_gti.fits")]> (pars w gt_apps.expMap))))) /\
  pars (after r) gt_apps.expMap !! "srcrad" = pars w gt_apps.expMap !! "srcrad".
Proof.
  intros Hc Ha Hb Hi Hrad He r.
  change (post (runExpMap self run) w (fun o w' d =>
    o = Raises e /\ d = [] /\
    pars w' gt_apps.expMap =
      <["irfs" := i]> (<["outfile" := VStr (b +:+ "_expMap.fits")]>
      (<["expcube" := VStr (b +:+ "_ltcube.fits")]>
      (<["scfile" := VStr (b +:+ "_SC.fits")]>
      (<["evfile" := VStr (b +:+ "_filtered_gti.fits")]> (pars w gt_apps.expMap))))) /\
    pars w' gt_apps.expMap !! "srcrad" = pars w gt_apps.expMap !! "srcrad")).
  unfold runExpMap. wp; try congruence.
  assert (e0 = e) as -> by congruence.
  read_world. repeat split. by simplify_map_eq.
Qed.

(** When [runExpMap] returns, the map it asked for has 120 pixels in each
    direction and 20 energies, as its docstring says, whatever the
    configuration. *)
Theorem runExpMap_grid self run (w : @world Env) :
  let r := runExpMap self run w in
  out r = Returns tt ->
  pars (after r) gt_apps.expMap !! "nlong" = Some (VInt 120) /\
  pars (after r) gt_apps.expMap !! "nlat" = Some (VInt 120) /\
  pars (after r) gt_apps.expMap !! "nenergies" = Some (VInt 20).
Proof.
  intros r.
  change (post (runExpMap self run) w (fun o w' _ =>
    o = Returns tt ->
    pars w' gt_apps.expMap !! "nlong" = Some (VInt 120) /\
    pars w' gt_apps.expMap !! "nlat" = Some (VInt 120) /\
    pars w' gt_apps.expMap !! "nenergies" = Some (VInt 20))).
  unfold runExpMap. wp; try discriminate.
  intros _. read_world. by simplify_map_eq.
Qed.

(** The counts cube and the counts map are square and of one geometry: when
    [runCCUBE] or [runCMAP] returns, nxpix and nypix are both
    [NumberOfPixels(float(rad), bin_size)], the coordinates are celestial,
    the projection is AIT without rotation, and the algorithm is the
    method's own. *)
Theorem counts_geometry self run bin_size nbins (w : @world Env) :
  let geometry (alg : string) (r : run_of unit) :=
    out r = Returns tt ->
    exists a rad f,
      analysisConf self = Some a /\ a !! "rad" = Some rad /\
      float_of_value rad = Returns f /\
      pars (after r) gt_apps.evtbin !! "nxpix" = Some (NumberOfPixels f bin_size) /\
      pars (after r) gt_apps.evtbin !! "nypix" = Some (NumberOfPixels f bin_size) /\
      pars (after r) gt_apps.evtbin !! "binsz" = Some bin_size /\
      pars (after r) gt_apps.evtbin !! "coordsys" = Some (VStr "CEL") /\
      pars (after r) gt_apps.evtbin !! "axisrot" = Some (VInt 0) /\
      pars (after r) gt_apps.evtbin !! "proj" = Some (VStr "AIT") /\
      pars (after r) gt_apps.evtbin !! "algorithm" = Some (VStr alg) in
  geometry "CCUBE" (runCCUBE self run bin_size nbins w) /\
  geometry "CMAP" (runCMAP self run bin_size w).
Proof.
  cbn zeta. split.
  - change (post (runCCUBE self run bin_size nbins) w (fun o w' _ =>
      o = Returns tt ->
      exists a rad f,
        analysisConf self = Some a /\ a !! "rad" = Some rad /\
        float_of_value rad = Returns f /\
        pars w' gt_apps.evtbin !! "nxpix" = Some (NumberOfPixels f bin_size) /\
        pars w' gt_apps.evtbin !! "nypix" = Some (NumberOfPixels f bin_size) /\
        pars w' gt_apps.evtbin !! "binsz" = Some bin_size /\
        pars w' gt_apps.evtbin !! "coordsys" = Some (VStr "CEL") /\
        pars w' gt_apps.evtbin !! "axisrot" = Some (VInt 0) /\
        pars w' gt_apps.evtbin !! "proj" = Some (VStr "AIT") /\
        pars w' gt_apps.evtbin !! "algorithm" = Some (VStr "CCUBE"))).
    unfold runCCUBE. wp; try discriminate.
    intros _. read_world. eexists _, _, _.
    repeat split; try eassumption; by simplify_map_eq.
  - change (post (runCMAP self run bin_size) w (fun o w' _ =>
      o = Returns tt ->
      exists a rad f,
        analysisConf self = Some a /\ a !! "rad" = Some rad /\
        float_of_value rad = Returns f /\
        pars w' gt_apps.evtbin !! "nxpix" = Some (NumberOfPixels f bin_size) /\
        pars w' gt_apps.evtbin !! "nypix" = Some (NumberOfPixels f bin_size) /\
        pars w' gt_apps.evtbin !! "binsz" = Some bin_size /\
        pars w' gt_apps.evtbin !! "coordsys" = Some (VStr "CEL") /\
        pars w' gt_apps.evtbin !! "axisrot" = Some (VInt 0) /\
        pars w' gt_apps.evtbin !! "proj" = Some (VStr "AIT") /\
        pars w' gt_apps.evtbin !! "algorithm" = Some (VStr "CMAP"))).
    unfold runCMAP. wp; try discriminate.
    intros _. read_world. eexists _, _, _.
    repeat split; try eassumption; by simplify_map_eq.
Qed.

(** What [runCCUBE] leaves in [evtbin] when it returns, with what it needed
    from the configuration. *)
Lemma runCCUBE_run self run bin_size nbins (w : @world Env) :
  post (runCCUBE self run bin_size nbins) w (fun o w' _ =>
    o = Returns tt ->
    exists c a b rad f ra dec emin emax,
      commonConf self = Some c /\ analysisConf self = Some a /\
      c !! "base" = Some (VStr b) /\ a !! "rad" = Some rad /\
      float_of_value rad = Returns f /\
      a !! "ra" = Some ra /\ a !! "dec" = Some dec /\
      a !! "emin" = Some emin /\ a !! "emax" = Some emax /\
      pars w' gt_apps.evtbin =
        <["enumbins" := nbins]> (<["emax" := emax]> (<["emin" := emin]>
        (<["ebinalg" := VStr "LOG"]> (<["proj" := VStr "AIT"]>
        (<["axisrot" := VInt 0]> (<["yref" := dec]> (<["xref" := ra]>
        (<["coordsys" := VStr "CEL"]> (<["binsz" := bin_size]>
        (<["nypix" := NumberOfPixels f bin_size]>
        (<["nxpix" := NumberOfPixels f bin_size]>
        (<["algorithm" := VStr "CCUBE"]>
        (<["outfile" := VStr (b +:+ "_CCUBE.fits")]>
        (<["evfile" := VStr (b +:+ "_filtered_gti.fits")]>
        (pars w gt_apps.evtbin)))))))))))))))).
Proof.
  unfold runCCUBE. wp; try discriminate.
  intros _. read_world. eexists _, _, _, _, _, _, _, _, _.
  repeat split; eassumption.
Qed.

Lemma runCMAP_run self run bin_size (w : @world Env) c a b rad f ra dec :
  commonConf self = Some c -> analysisConf self = Some a ->
  c !! "base" = Some (VStr b) -> a !! "rad" = Some rad ->
  float_of_value rad = Returns f ->
  a !! "ra" = Some ra -> a !! "dec" = Some dec ->
  post (runCMAP self run bin_size) w (fun o w' _ =>
    o = Returns tt /\
    pars w' gt_apps.evtbin =
      <["proj" := VStr "AIT"]>
      (<["axisrot" := VInt 0]> (<["yref" := dec]> (<["xref" := ra]>
      (<["coordsys" := VStr "CEL"]> (<["binsz" := bin_size]>
      (<["nypix" := NumberOfPixels f bin_size]>
      (<["nxpix" := NumberOfPixels f bin_size]>
      (<["algorithm" := VStr "CMAP"]>
      (<["outfile" := VStr (b +:+ "_CMAP.fits")]>
      (<["evfile" := VStr (b +:+ "_filtered_gti.fits")]>
      (pars w gt_apps.evtbin)))))))))))).
Proof.
  intros. unfold runCMAP. wp; try congruence.
  read_world. split; reflexivity.
Qed.

(** Looking a key up in a dictionary written key by key. *)
Ltac look :=
  repeat first [rewrite lookup_insert_eq | rewrite lookup_insert_ne by discriminate].

(** [runCMAP] called after a [runCCUBE] that returned, with the same bin
    size, returns too, and of the parameters of [evtbin] it changes only
    outfile and algorithm: the shared dictionary then describes the counts
    map, with the energy binning of the cube still in it. *)
Theorem runCMAP_after_runCCUBE self run bin_size nbins (w : @world Env) :
  let r1 := runCCUBE self run bin_size nbins w in
  let r2 := runCMAP self run bin_size (after r1) in
  out r1 = Returns tt ->
  out r2 = Returns tt /\
  (forall k, k <> "outfile" -> k <> "algorithm" ->
     pars (after r2) gt_apps.evtbin !! k = pars (after r1) gt_apps.evtbin !! k) /\
  pars (after r2) gt_apps.evtbin !! "algorithm" = Some (VStr "CMAP") /\
  pars (after r1) gt_apps.evtbin !! "algorithm" = Some (VStr "CCUBE").
Proof.
  intros r1 r2 H1.
  destruct (runCCUBE_run self run bin_size nbins w H1)
    as (c & a & b & rad & f & ra & dec & emin & emax &
        Hc & Ha & Hb & Hrad & Hf & Hra & Hdec & Hemin & Hemax & Hp1).
  destruct (runCMAP_run self run bin_size (after r1) c a b rad f ra dec
              Hc Ha Hb Hrad Hf Hra Hdec) as [H2 Hp2].
  fold r1 in Hp1. fold r2 in H2, Hp2.
  split; [exact H2|]. rewrite Hp2, Hp1. split; [|split; look; reflexivity].
  intros k Hk1 Hk2.
  repeat match goal with
  | |- <[?key := _]> _ !! k = _ =>
      destruct (decide (k = key)) as [->|?];
      [first [congruence | look; reflexivity]
      | rewrite (lookup_insert_ne _ key k) by done]
  end.
  reflexivity.
Qed.

(** A dry run of [runExpCube] only prints: it fails exactly when the real
    run fails, leaves the world as it is, and the line it prints is the
    command the real run hands to [os.system] and then logs. *)
Theorem runExpCube_dry_run self bin_size nbins (w : @world Env) :
  let dry := runExpCube self false bin_size nbins w in
  let real := runExpCube self true bin_size nbins w in
  after dry = w /\ out real = out dry /\
  (out dry = Returns tt ->
   exists cmd,
     did dry = [EvPrint cmd] /\ did real = [EvOsSystem cmd; EvInfo cmd] /\
     env (after real) = os_system cmd (env w)).
Proof.
  intros dry real.
  change (post (runExpCube self false bin_size nbins) w (fun o w' d =>
    w' = w /\ out real = o /\
    (o = Returns tt ->
     exists cmd,
       d = [EvPrint cmd] /\ did real = [EvOsSystem cmd; EvInfo cmd] /\
       env (after real) = os_system cmd (env w)))).
  unfold runExpCube. wp.
  all: split; [reflexivity|]; split; [|try discriminate].
  all: try (intros _; eexists; split; [reflexivity|]).
  all: lazymatch goal with
       | |- out _ = ?X =>
           change (post (runExpCube self true bin_size nbins) w (fun o _ _ => o = X))
       | |- did _ = ?X /\ env (after _) = ?Y =>
           change (post (runExpCube self true bin_size nbins) w (fun _ w' d =>
                     d = X /\ env w' = Y))
       end.
  all: unfold runExpCube; wp; try congruence.
  all: first [reflexivity | split; reflexivity].
Qed.

(** [generateXMLmodel] turns [FileNotFound] into the critical log line and
    returns; it returns what the helper returns otherwise, and lets every
    other error pass.  It never changes a parameter or issues a command. *)
Theorem generateXMLmodel_swallows_missing_files self (w : @world Env) c v :
  commonConf self = Some c -> c !! "base" = Some v ->
  let g := generateXMLmodel_util v (env w) in
  let r := generateXMLmodel self w in
  pars (after r) = pars w /\ env (after r) = g.2 /\ issued (did r) = [] /\
  out r = match g.1 with Raises FileNotFound => Returns tt | o => o end /\
  did r = EvGenerateXMLmodel v ::
          match g.1 with
          | Raises FileNotFound => [EvCritical missing_files_msg]
          | _ => []
          end.
Proof.
  intros Hc Hv g r.
  change (post (generateXMLmodel self) w (fun o w' d =>
    pars w' = pars w /\ env w' = g.2 /\ issued d = [] /\
    o = match g.1 with Raises FileNotFound => Returns tt | o => o end /\
    d = EvGenerateXMLmodel v ::
        match g.1 with
        | Raises FileNotFound => [EvCritical missing_files_msg]
        | _ => []
        end)).
  unfold generateXMLmodel. wp.
  all: subst g; cbn [env set_env] in *.
  all: match goal with H : (generateXMLmodel_util _ _).1 = _ |- _ => rewrite H end.
  all: repeat split; try reflexivity.
  all: match goal with x : unit |- _ => by destruct x end.
Qed.


(** ** What a run of [runAll] hands to the tools *)

(** [emits P m]: every command that [m] issues satisfies [P]. *)
Definition emits {A} (P : event -> Prop) (m : M A) : Prop :=
  forall (w : @world Env) e, In e (did (m w)) -> issued_by e <> None -> P e.

(** The [run] flag of the caller is the one the tools are run with, and a
    command line reaches [os.system] only when it is set. *)
Definition run_flag_kept (run : bool) (e : event) : Prop :=
  match e with
  | EvRunCommand _ _ r => r = run
  | EvOsSystem _ => run = true
  | _ => True
  end.

(** The arguments the run-methods have by default, as the tools see them. *)
Definition defaults_used (e : event) : Prop :=
  match e with
  | EvRunCommand gt_apps.filter p _ => p !! "convtype" = Some (VInt (-1))
  | EvRunCommand gt_apps.maketime p _ =>
      p !! "filter" =
        Some (VStr "DATA_QUAL==1 && LAT_CONFIG==1 && ABS(ROCK_ANGLE)<52") /\
      p !! "roicut" = Some (VStr "yes")
  | EvRunCommand gt_apps.expCube p _ => p !! "zmax" = Some (VInt 180)
  | EvRunCommand gt_apps.evtbin p _ =>
      p !! "algorithm" = Some (VStr "CCUBE") /\
      p !! "binsz" = Some (VFloat 0.1%float) /\
      p !! "enumbins" = Some (VInt 30)
  | _ => True
  end.

Lemma issued_nil_In l e : issued l = [] -> In e l -> issued_by e = None.
Proof.
  induction l as [|x l IH]; intros H []; subst.
  - unfold issued in H. cbn in H. destruct (issued_by e); [discriminate|reflexivity].
  - apply IH; [|assumption].
    unfold issued in *. cbn in H. destruct (issued_by x); [discriminate|exact H].
Qed.

Lemma emits_silent {A} P (m : M A) : silent m -> emits P m.
Proof. intros H w e Hin Hi. destruct Hi. eapply issued_nil_In; eauto. Qed.

Lemma emits_bind {A B} P (m : M A) (k : A -> M B) :
  emits P m -> (forall x, emits P (k x)) -> emits P (bind m k).
Proof.
  intros Hm Hk w e. unfold bind. cbn [out after did].
  destruct (out (m w)) as [a|x]; cbn [out after did]; [|apply Hm].
  intros Hin Hi. apply List.in_app_or in Hin as [Hin|Hin];
    [exact (Hm w e Hin Hi) | exact (Hk a _ e Hin Hi)].
Qed.

Lemma emits_try {A B} P (m : M A) catches (h : M B) (k : A -> M B) :
  emits P m -> emits P h -> (forall x, emits P (k x)) ->
  emits P (try_except m catches h k).
Proof.
  intros Hm Hh Hk w e. unfold try_except. cbn [out after did].
  destruct (out (m w)) as [a|x]; cbn [out after did].
  - intros Hin Hi. apply List.in_app_or in Hin as [Hin|Hin];
      [exact (Hm w e Hin Hi) | exact (Hk a _ e Hin Hi)].
  - destruct (catches x); cbn [out after did]; [|apply Hm].
    intros Hin Hi. apply List.in_app_or in Hin as [Hin|Hin];
      [exact (Hm w e Hin Hi) | exact (Hh _ e Hin Hi)].
Qed.

Lemma emits_runCommand P a run :
  (forall p, P (EvRunCommand a p run)) -> emits P (runCommand a run).
Proof. intros H w e [<-|[]] _. apply H. Qed.

Lemma emits_handed P a run (m : M unit) :
  hands_over a run m ->
  (forall w : @world Env,
     out (m w) = Returns tt -> P (EvRunCommand a (pars (after (m w)) a) run)) ->
  emits P m.
Proof.
  intros H HP w e Hin _. destruct (H w) as [_ Hd]. specialize (HP w).
  destruct (out (m w)) as [[]|x]; rewrite Hd in Hin; [|destruct Hin].
  destruct Hin as [<-|[]]. by apply HP.
Qed.

Lemma emits_runExpCube P self run bs nb :
  (run = true -> forall cmd, P (EvOsSystem cmd)) ->
  emits P (runExpCube self run bs nb).
Proof.
  intros H w e Hin Hi. destruct (runExpCube_shape self run bs nb w) as [_ Hd].
  destruct (out (runExpCube self run bs nb w)); [|rewrite Hd in Hin; destruct Hin].
  destruct Hd as [cmd Hd]. rewrite Hd in Hin. destruct run.
  - destruct Hin as [<-|[<-|[]]]; [by apply H | by destruct Hi].
  - destruct Hin as [<-|[]]. by destruct Hi.
Qed.

Ltac emits_quietly := apply emits_silent; solve [silence].

(** The steps of [runAll], one lemma per step. *)
Ltac emits_runAll on_select on_gti on_ltcube on_ccube on_expcube on_srcmaps on_expmap :=
  unfold runAll;
  apply emits_bind; [emits_quietly | intros _];
  apply emits_try; [emits_quietly | emits_quietly | intros _];
  apply emits_bind; [emits_quietly | intros _];
  apply emits_bind; [on_select | intros _];
  apply emits_bind; [emits_quietly | intros _];
  apply emits_bind; [on_gti | intros _];
  apply emits_bind; [emits_quietly | intros _];
  apply emits_bind; [on_ltcube | intros _];
  apply emits_bind; [emits_quietly | intros ?];
  lazymatch goal with
  | |- emits _ (if truthy ?v then _ else _) => destruct (truthy v)
  end;
  [ apply emits_bind; [emits_quietly | intros _];
    apply emits_bind; [on_ccube | intros _];
    apply emits_bind; [emits_quietly | intros _];
    apply emits_bind; [on_expcube | intros _];
    apply emits_bind; [emits_quietly | intros _];
    on_srcmaps
  | apply emits_bind; [emits_quietly | intros _];
    on_expmap ].

Lemma runSrcMaps_emits P self run :
  (forall p, P (EvRunCommand gt_apps.srcMaps p run)) -> emits P (runSrcMaps self run).
Proof.
  intros H. unfold runSrcMaps.
  apply emits_bind; [emits_quietly | intros _].
  apply emits_try; [emits_quietly | emits_quietly | intros _].
  repeat (apply emits_bind; [emits_quietly | intros]).
  by apply emits_runCommand.
Qed.

Lemma runAll_keeps_flag self run : emits (run_flag_kept run) (runAll self run).
Proof.
  emits_runAll
    ltac:(apply (emits_handed _ gt_apps.filter run); [apply runSelect_hands_over | reflexivity])
    ltac:(apply (emits_handed _ gt_apps.maketime run); [apply runGTI_hands_over | reflexivity])
    ltac:(apply (emits_handed _ gt_apps.expCube run); [apply runLTCube_hands_over | reflexivity])
    ltac:(apply (emits_handed _ gt_apps.evtbin run); [apply runCCUBE_hands_over | reflexivity])
    ltac:(apply emits_runExpCube; intros -> ?; reflexivity)
    ltac:(apply runSrcMaps_emits; reflexivity)
    ltac:(apply (emits_handed _ gt_apps.expMap run); [apply runExpMap_hands_over | reflexivity]).
Qed.

(** [runAll] runs every tool with its own [run] flag; in a dry run no
    command line reaches [os.system]. *)
Theorem runAll_passes_run_flag self run (w : @world Env) :
  (forall a p r, In (EvRunCommand a p r) (did (runAll self run w)) -> r = run) /\
  (forall cmd, In (EvOsSystem cmd) (did (runAll self run w)) -> run = true).
Proof.
  split; intros.
  - by apply (runAll_keeps_flag self run w (EvRunCommand a p r)).
  - by apply (runAll_keeps_flag self run w (EvOsSystem cmd)).
Qed.

Ltac default_of m w a run :=
  change (post m w (fun o w' _ =>
    o = Returns tt -> defaults_used (EvRunCommand a (pars w' a) run)));
  unfold runSelect, runGTI, runLTCube, runCCUBE; wp; try discriminate;
  intros _; cbn [defaults_used]; read_world; look; repeat split.

Lemma runAll_defaults self run : emits defaults_used (runAll self run).
Proof.
  emits_runAll
    ltac:(apply (emits_handed _ gt_apps.filter run);
          [apply runSelect_hands_over
          |intros w; default_of (runSelect self run default_convtype) w gt_apps.filter run])
    ltac:(apply (emits_handed _ gt_apps.maketime run);
          [apply runGTI_hands_over
          |intros w; default_of (runGTI self run default_filterString default_roi) w
                       gt_apps.maketime run])
    ltac:(apply (emits_handed _ gt_apps.expCube run);
          [apply runLTCube_hands_over
          |intros w; default_of (runLTCube self run default_zmax) w gt_apps.expCube run])
    ltac:(apply (emits_handed _ gt_apps.evtbin run);
          [apply runCCUBE_hands_over
          |intros w; default_of (runCCUBE self run default_bin_size default_nbins) w
                       gt_apps.evtbin run])
    ltac:(apply emits_runExpCube; intros; exact I)
    ltac:(apply runSrcMaps_emits; intros; exact I)
    ltac:(apply (emits_handed _ gt_apps.expMap run);
          [apply runExpMap_hands_over | intros; exact I]).
Qed.

(** [runAll] calls its steps with their default arguments, whatever the
    configuration: the conversion type of gtselect is -1, gtmktime has the
    standard filter with the ROI cut, the livetime cube is cut at a zenith
    angle of 180 (the configured zmax reaches gtselect only), and gtbin makes
    a counts cube of 30 energy bins with pixels of 0.1 degree. *)
Theorem runAll_uses_defaults self run (w : @world Env) a p r :
  In (EvRunCommand a p r) (did (runAll self run w)) ->
  defaults_used (EvRunCommand a p r).
Proof. intros Hin. by apply (runAll_defaults self run w). Qed.

(** [runSrcMaps] with its four files in place runs gtsrcmaps, and does so
    also when [generateXMLmodel] has just missed its own files: the model
    <base>_model.xml is handed to the tool as srcmdl without being among the
    files that are checked.  The nine parameters of [srcMaps] are written in
    the order of the source, rfactor 4 and emapbnds "no" among them. *)
Theorem runSrcMaps_parameters self run (w : @world Env) c b i :
  commonConf self = Some c -> c !! "base" = Some (VStr b) -> c !! "irfs" = Some i ->
  let g := generateXMLmodel_util (VStr b) (env w) in
  let files := [b +:+ "_CCUBE.fits"; b +:+ "_ltcube.fits";
                b +:+ "_BinnedExpMap.fits"; b +:+ "_SC.fits"] in
  let r := runSrcMaps self run w in
  g.1 = Returns tt \/ g.1 = Raises FileNotFound ->
  forallb (file_exists g.2) files = true ->
  out r = Returns tt /\ issued (did r) = [gtsrcmaps] /\
  pars (after r) gt_apps.srcMaps =
    <["emapbnds" := VStr "no"]> (<["rfactor" := VInt 4]> (<["irfs" := i]>
    (<["outfile" := VStr (b +:+ "_srcMaps.fits")]>
    (<["bexpmap" := VStr (b +:+ "_BinnedExpMap.fits")]>
    (<["srcmdl" := VStr (b +:+ "_model.xml")]>
    (<["cmap" := VStr (b +:+ "_CCUBE.fits")]>
    (<["expcube" := VStr (b +:+ "_ltcube.fits")]>
    (<["scfile" := VStr (b +:+ "_SC.fits")]> (pars w gt_apps.srcMaps))))))))) /\
  (forall a, a <> gt_apps.srcMaps -> pars (after r) a = pars w a).
Proof.
  intros Hc Hb Hi g files r Hg Hfiles. subst r.
  change (post (runSrcMaps self run) w (fun o w' d =>
    o = Returns tt /\ issued d = [gtsrcmaps] /\
    pars w' gt_apps.srcMaps =
      <["emapbnds" := VStr "no"]> (<["rfactor" := VInt 4]> (<["irfs" := i]>
      (<["outfile" := VStr (b +:+ "_srcMaps.fits")]>
      (<["bexpmap" := VStr (b +:+ "_BinnedExpMap.fits")]>
      (<["srcmdl" := VStr (b +:+ "_model.xml")]>
      (<["cmap" := VStr (b +:+ "_CCUBE.fits")]>
      (<["expcube" := VStr (b +:+ "_ltcube.fits")]>
      (<["scfile" := VStr (b +:+ "_SC.fits")]> (pars w gt_apps.srcMaps))))))))) /\
    (forall a, a <> gt_apps.srcMaps -> pars w' a = pars w a))).
  unfold runSrcMaps. wp.
  all: subst g files; cbn [env set_env fst snd] in *.
  all: try (exfalso; destruct Hg; congruence).
  all: repeat split; first [others_kept | read_world; reflexivity].
Qed.

(** ** The objects a run of [runAll] leaves alone *)

(** [spares a m]: [m] leaves the parameters of [a] as they are. *)
Definition spares {A} (a : app) (m : M A) : Prop :=
  forall w : @world Env, pars (after (m w)) a = pars w a.

Lemma spares_keeps {A} a (m : M A) : keeps_pars m -> spares a m.
Proof. intros H w. by rewrite H. Qed.

Lemma spares_setpar a b k v : a <> b -> spares a (setpar (Env := Env) b k v).
Proof. intros H w. by apply pars_set_par_other. Qed.

Lemma spares_bind {A B} a (m : M A) (k : A -> M B) :
  spares a m -> (forall x, spares a (k x)) -> spares a (bind m k).
Proof.
  intros Hm Hk w. unfold bind. cbn [out after did].
  destruct (out (m w)); cbn [out after did]; [|apply Hm]. by rewrite Hk, Hm.
Qed.

Lemma spares_try {A B} a (m : M A) catches (h : M B) (k : A -> M B) :
  spares a m -> spares a h -> (forall x, spares a (k x)) ->
  spares a (try_except m catches h k).
Proof.
  intros Hm Hh Hk w. unfold try_except. cbn [out after did].
  destruct (out (m w)); cbn [out after did].
  - by rewrite Hk, Hm.
  - destruct (catches e); cbn [out after did]; [by rewrite Hh, Hm | apply Hm].
Qed.

Lemma spares_self_commonConf_bind {B} a self k (f : value -> M B) :
  (forall d v, commonConf self = Some d -> d !! k = Some v -> spares a (f v)) ->
  spares a (bind (self_commonConf (Env := Env) self k) f).
Proof.
  intros H w. unfold self_commonConf, getitem.
  destruct (commonConf self) as [d|] eqn:Hd; [|reflexivity].
  destruct (d !! k) as [v|] eqn:Hv; [|reflexivity].
  exact (H d v eq_refl Hv w).
Qed.

Lemma spares_os_system_call a cmd : spares a (os_system_call cmd).
Proof. by intros w. Qed.

Ltac spare :=
  repeat first
    [ apply spares_bind; [|intros]
    | apply spares_try; [| |intros]
    | apply spares_setpar; discriminate
    | apply spares_os_system_call
    | apply spares_keeps; solve [keeps]
    | lazymatch goal with
      | |- spares _ (if ?b then _ else _) => destruct b
      end
    | progress unfold logger_info, logger_critical, py_print, generateXMLmodel ].

(** The steps common to both modes touch neither [expMap], [evtbin] nor
    [srcMaps]; the binned steps leave [expMap] alone, and the unbinned step
    leaves [evtbin] and [srcMaps] alone. *)
Lemma runAll_spares self run a :
  match binned_of self with
  | Some true => a = gt_apps.expMap
  | Some false => a = gt_apps.evtbin \/ a = gt_apps.srcMaps
  | None => a = gt_apps.expMap \/ a = gt_apps.evtbin \/ a = gt_apps.srcMaps
  end ->
  spares a (runAll self run).
Proof.
  intros Ha.
  assert (a <> gt_apps.filter /\ a <> gt_apps.maketime /\ a <> gt_apps.expCube)
    as (Hf & Hm & He).
  { destruct (binned_of self) as [[]|]; intuition (subst; discriminate). }
  unfold runAll.
  apply spares_bind; [spare | intros _].
  apply spares_try; [spare | spare | intros _].
  apply spares_bind; [spare | intros _].
  apply spares_bind; [intros w; by apply runSelect_hands_over | intros _].
  apply spares_bind; [spare | intros _].
  apply spares_bind; [intros w; by apply runGTI_hands_over | intros _].
  apply spares_bind; [spare | intros _].
  apply spares_bind; [intros w; by apply runLTCube_hands_over | intros _].
  apply spares_self_commonConf_bind. intros d v Hd Hv.
  unfold binned_of in Ha. rewrite Hd, Hv in Ha.
  destruct (truthy v).
  - subst a.
    apply spares_bind; [spare | intros _].
    apply spares_bind; [intros w; by apply runCCUBE_hands_over | intros _].
    apply spares_bind; [spare | intros _].
    apply spares_bind;
      [intros w; by rewrite (proj1 (runExpCube_shape self run _ _ w)) | intros _].
    apply spares_bind; [spare | intros _].
    unfold runSrcMaps. spare.
  - apply spares_bind; [spare | intros _].
    intros w. apply runExpMap_hands_over. destruct Ha; subst; discriminate.
Qed.

(** A run of [runAll] in unbinned mode leaves the parameters of [evtbin]
    and [srcMaps] as they were, and a run in binned mode those of [expMap],
    however the run ends. *)
Theorem runAll_mode_frame self run (w : @world Env) :
  let r := runAll self run w in
  (binned_of self = Some false ->
   pars (after r) gt_apps.evtbin = pars w gt_apps.evtbin /\
   pars (after r) gt_apps.srcMaps = pars w gt_apps.srcMaps) /\
  (binned_of self = Some true ->
   pars (after r) gt_apps.expMap = pars w gt_apps.expMap).
Proof.
  intros r. split; intros Hb.
  - split; apply runAll_spares; rewrite Hb; auto.
  - apply runAll_spares. by rewrite Hb.
Qed.


(** * The methods on a configuration that has what they read *)

(** The keys [ks] are in the dictionary [d]. *)
Definition has_keys (d : conf) (ks : list string) : Prop :=
  Forall (fun k => is_Some (d !! k)) ks.

(** [d[k]] is there and [float] accepts it. *)
Definition numeric_key (d : conf) (k : string) : Prop :=
  exists v f, d !! k = Some v /\ float_of_value v = Returns f.

(** [one_command a run w r]: the run [r] from [w] returned; all it did to
    the outside is one call of [runCommand], on [a] with the parameters it
    left in [a] and with the flag [run]; no other object has changed. *)
Definition one_command (a : app) (run : bool) (w : @world Env) (r : run_of unit) : Prop :=
  out r = Returns tt /\
  did r = [EvRunCommand a (pars (after r) a) run] /\
  env (after r) = runCommand_util a (pars (after r) a) run (env w) /\
  (forall b, b <> a -> pars (after r) b = pars w b).

Ltac open_keys :=
  unfold has_keys, numeric_key in *;
  repeat match goal with
  | H : Forall _ (_ :: _) |- _ =>
      let v := fresh "v" in let Hv := fresh "Hkey" in
      apply Forall_cons in H as [[v Hv] H]
  | H : Forall _ [] |- _ => clear H
  | H : exists v f, _ !! _ = Some v /\ _ |- _ => destruct H as (? & ? & ? & ?)
  end.

(** The end of a run that handed an object over: each part of the goal by
    reading the world that the run built. *)
Ltac settle :=
  unfold one_command; cbn [out after did];
  repeat split;
  first
    [ others_kept
    | read_world; look; first [reflexivity | congruence | symmetry; eassumption]
    | read_world; eexists _, _; repeat split; try eassumption; look; reflexivity ].

Lemma runSelect_runs self run convtype (w : @world Env) c a b :
  commonConf self = Some c -> analysisConf self = Some a ->
  c !! "base" = Some (VStr b) -> has_keys c ["eventclass"] ->
  has_keys a ["rad"; "ra"; "dec"; "tmin"; "tmax"; "emin"; "emax"; "zmax"] ->
  post (runSelect self run convtype) w (fun o w' d =>
    one_command gt_apps.filter run w (Run o w' d) /\
    pars w' gt_apps.filter !! "rad" = a !! "rad" /\
    pars w' gt_apps.filter !! "evclass" = c !! "eventclass" /\
    pars w' gt_apps.filter !! "infile" = Some (VStr ("@" +:+ b +:+ ".list")) /\
    pars w' gt_apps.filter !! "outfile" = Some (VStr (b +:+ "_filtered.fits")) /\
    pars w' gt_apps.filter !! "ra" = a !! "ra" /\
    pars w' gt_apps.filter !! "dec" = a !! "dec" /\
    pars w' gt_apps.filter !! "tmin" = a !! "tmin" /\
    pars w' gt_apps.filter !! "tmax" = a !! "tmax" /\
    pars w' gt_apps.filter !! "emin" = a !! "emin" /\
    pars w' gt_apps.filter !! "emax" = a !! "emax" /\
    pars w' gt_apps.filter !! "zmax" = a !! "zmax" /\
    pars w' gt_apps.filter !! "convtype" = Some convtype).
Proof.
  intros Hc Ha Hb Hkc Hka. open_keys.
  unfold runSelect. wp; try congruence. settle.
Qed.

Lemma runGTI_runs self run filterString roi (w : @world Env) c b :
  commonConf self = Some c -> c !! "base" = Some (VStr b) ->
  post (runGTI self run filterString roi) w (fun o w' d =>
    one_command gt_apps.maketime run w (Run o w' d) /\
    pars w' gt_apps.maketime !! "scfile" = Some (VStr (b +:+ "_SC.fits")) /\
    pars w' gt_apps.maketime !! "filter" = Some filterString /\
    pars w' gt_apps.maketime !! "roicut" = Some roi /\
    pars w' gt_apps.maketime !! "evfile" = Some (VStr (b +:+ "_filtered.fits")) /\
    pars w' gt_apps.maketime !! "outfile" = Some (VStr (b +:+ "_filtered_gti.fits"))).
Proof.
  intros Hc Hb. unfold runGTI. wp; try congruence. settle.
Qed.

Lemma runLTCube_runs self run zmax (w : @world Env) c b :
  commonConf self = Some c -> c !! "base" = Some (VStr b) ->
  post (runLTCube self run zmax) w (fun o w' d =>
    one_command gt_apps.expCube run w (Run o w' d) /\
    pars w' gt_apps.expCube !! "evfile" = Some (VStr (b +:+ "_filtered_gti.fits")) /\
    pars w' gt_apps.expCube !! "scfile" = Some (VStr (b +:+ "_SC.fits")) /\
    pars w' gt_apps.expCube !! "outfile" = Some (VStr (b +:+ "_ltcube.fits")) /\
    pars w' gt_apps.expCube !! "dcostheta" = Some (VFloat 0.025%float) /\
    pars w' gt_apps.expCube !! "binsz" = Some (VInt 1) /\
    pars w' gt_apps.expCube !! "zmax" = Some zmax).
Proof.
  intros Hc Hb. unfold runLTCube. wp; try congruence. settle.
Qed.

Lemma runExpMap_runs self run (w : @world Env) c a b :
  commonConf self = Some c -> analysisConf self = Some a ->
  c !! "base" = Some (VStr b) -> has_keys c ["irfs"] -> numeric_key a "rad" ->
  post (runExpMap self run) w (fun o w' d =>
    one_command gt_apps.expMap run w (Run o w' d) /\
    pars w' gt_apps.expMap !! "evfile" = Some (VStr (b +:+ "_filtered_gti.fits")) /\
    pars w' gt_apps.expMap !! "scfile" = Some (VStr (b +:+ "_SC.fits")) /\
    pars w' gt_apps.expMap !! "expcube" = Some (VStr (b +:+ "_ltcube.fits")) /\
    pars w' gt_apps.expMap !! "outfile" = Some (VStr (b +:+ "_expMap.fits")) /\
    pars w' gt_apps.expMap !! "irfs" = c !! "irfs" /\
    pars w' gt_apps.expMap !! "nlong" = Some (VInt 120) /\
    pars w' gt_apps.expMap !! "nlat" = Some (VInt 120) /\
    pars w' gt_apps.expMap !! "nenergies" = Some (VInt 20) /\
    exists rad f,
      a !! "rad" = Some rad /\ float_of_value rad = Returns f /\
      pars w' gt_apps.expMap !! "srcrad" = Some (VFloat (PrimFloat.add f 10%float))).
Proof.
  intros Hc Ha Hb Hkc Hrad. open_keys.
  unfold runExpMap. wp; try congruence. settle.
Qed.

Lemma runCCUBE_runs self run bin_size nbins (w : @world Env) c a b :
  commonConf self = Some c -> analysisConf self = Some a ->
  c !! "base" = Some (VStr b) -> numeric_key a "rad" ->
  has_keys a ["ra"; "dec"; "emin"; "emax"] ->
  post (runCCUBE self run bin_size nbins) w (fun o w' d =>
    one_command gt_apps.evtbin run w (Run o w' d) /\
    pars w' gt_apps.evtbin !! "evfile" = Some (VStr (b +:+ "_filtered_gti.fits")) /\
    pars w' gt_apps.evtbin !! "outfile" = Some (VStr (b +:+ "_CCUBE.fits")) /\
    pars w' gt_apps.evtbin !! "algorithm" = Some (VStr "CCUBE") /\
    pars w' gt_apps.evtbin !! "binsz" = Some bin_size /\
    pars w' gt_apps.evtbin !! "coordsys" = Some (VStr "CEL") /\
    pars w' gt_apps.evtbin !! "xref" = a !! "ra" /\
    pars w' gt_apps.evtbin !! "yref" = a !! "dec" /\
    pars w' gt_apps.evtbin !! "axisrot" = Some (VInt 0) /\
    pars w' gt_apps.evtbin !! "proj" = Some (VStr "AIT") /\
    pars w' gt_apps.evtbin !! "ebinalg" = Some (VStr "LOG") /\
    pars w' gt_apps.evtbin !! "emin" = a !! "emin" /\
    pars w' gt_apps.evtbin !! "emax" = a !! "emax" /\
    pars w' gt_apps.evtbin !! "enumbins" = Some nbins /\
    exists rad f,
      a !! "rad" = Some rad /\ float_of_value rad = Returns f /\
      pars w' gt_apps.evtbin !! "nxpix" = Some (NumberOfPixels f bin_size) /\
      pars w' gt_apps.evtbin !! "nypix" = Some (NumberOfPixels f bin_size)).
Proof.
  intros Hc Ha Hb Hrad Hka. open_keys.
  unfold runCCUBE. wp; try congruence. settle.
Qed.

Lemma runCMAP_runs self run bin_size (w : @world Env) c a b :
  commonConf self = Some c -> analysisConf self = Some a ->
  c !! "base" = Some (VStr b) -> numeric_key a "rad" ->
  has_keys a ["ra"; "dec"] ->
  post (runCMAP self run bin_size) w (fun o w' d =>
    one_command gt_apps.evtbin run w (Run o w' d) /\
    pars w' gt_apps.evtbin !! "evfile" = Some (VStr (b +:+ "_filtered_gti.fits")) /\
    pars w' gt_apps.evtbin !! "outfile" = Some (VStr (b +:+ "_CMAP.fits")) /\
    pars w' gt_apps.evtbin !! "algorithm" = Some (VStr "CMAP") /\
    pars w' gt_apps.evtbin !! "binsz" = Some bin_size /\
    pars w' gt_apps.evtbin !! "coordsys" = Some (VStr "CEL") /\
    pars w' gt_apps.evtbin !! "xref" = a !! "ra" /\
    pars w' gt_apps.evtbin !! "yref" = a !! "dec" /\
    pars w' gt_apps.evtbin !! "axisrot" = Some (VInt 0) /\
    pars w' gt_apps.evtbin !! "proj" = Some (VStr "AIT") /\
    exists rad f,
      a !! "rad" = Some rad /\ float_of_value rad = Returns f /\
      pars w' gt_apps.evtbin !! "nxpix" = Some (NumberOfPixels f bin_size) /\
      pars w' gt_apps.evtbin !! "nypix" = Some (NumberOfPixels f bin_size)).
Proof.
  intros Hc Ha Hb Hrad Hka. open_keys.
  unfold runCMAP. wp; try congruence. settle.
Qed.

(** The command line of gtexpcube2 as [runExpCube] writes it. *)
Definition gtexpcube2_command (b i : string)
    (ra dec npix bin_size emin emax nbins : value) : string :=
  "gtexpcube2 infile=" +:+ b +:+ "_ltcube.fits" +:+ " cmap=none" +:+
  " outfile=" +:+ b +:+ "_BinnedExpMap.fits" +:+
  " irfs=" +:+ i +:+
  " xref=" +:+ py_str ra +:+
  " yref=" +:+ py_str dec +:+
  " nxpix=" +:+ py_str npix +:+
  " nypix=" +:+ py_str npix +:+
  " binsz=" +:+ py_str bin_size +:+
  " coordsys=CEL" +:+ " axisrot=0" +:+ " proj=AIT" +:+ " ebinalg=LOG" +:+
  " emin=" +:+ py_str emin +:+
  " emax=" +:+ py_str emax +:+
  " enumbins=" +:+ py_str nbins.

Lemma runExpCube_runs self run bin_size nbins (w : @world Env)
    c a b i rad f ra dec emin emax :
  commonConf self = Some c -> analysisConf self = Some a ->
  c !! "base" = Some (VStr b) -> c !! "irfs" = Some (VStr i) ->
  a !! "rad" = Some rad -> float_of_value rad = Returns f ->
  a !! "ra" = Some ra -> a !! "dec" = Some dec ->
  a !! "emin" = Some emin -> a !! "emax" = Some emax ->
  post (runExpCube self run bin_size nbins) w (fun o w' d =>
    let cmd := gtexpcube2_command b i ra dec (NumberOfPixels f bin_size)
                 bin_size emin emax nbins in
    o = Returns tt /\ pars w' = pars w /\
    d = (if run then [EvOsSystem cmd; EvInfo cmd] else [EvPrint cmd]) /\
    env w' = if run then os_system cmd (env w) else env w).
Proof.
  intros. unfold runExpCube. wp; try congruence.
  all: unfold gtexpcube2_command; rewrite !append_assoc.
  all: repeat split; reflexivity.
Qed.

(** The events of [generateXMLmodel] on the base name [b], by what the
    helper answered. *)
Definition model_events (b : string) (g : outcome unit) : list event :=
  EvGenerateXMLmodel (VStr b) ::
  match g with
  | Raises FileNotFound => [EvCritical missing_files_msg]
  | _ => []
  end.

(** The files [runSrcMaps] looks for. *)
Definition srcMaps_files (b : string) : list string :=
  [b +:+ "_CCUBE.fits"; b +:+ "_ltcube.fits"; b +:+ "_BinnedExpMap.fits";
   b +:+ "_SC.fits"].

(** [runSrcMaps] case by case: the helper of [generateXMLmodel] failed with
    something else than missing files; a file of the check is missing; all
    four are there. *)
Lemma runSrcMaps_runs self run (w : @world Env) c b :
  commonConf self = Some c -> c !! "base" = Some (VStr b) ->
  let g := generateXMLmodel_util (VStr b) (env w) in
  post (runSrcMaps self run) w (fun o w' d =>
    (forall e, g.1 = Raises e -> e <> FileNotFound ->
       o = Raises e /\ d = [EvGenerateXMLmodel (VStr b)] /\
       pars w' = pars w /\ env w' = g.2) /\
    (g.1 = Returns tt \/ g.1 = Raises FileNotFound ->
     forallb (file_exists g.2) (srcMaps_files b) = false ->
       o = Returns tt /\
       d = model_events b g.1 ++
           [EvCheckForFiles (srcMaps_files b); EvCritical missing_files_msg] /\
       pars w' = pars w /\ env w' = g.2) /\
    (g.1 = Returns tt \/ g.1 = Raises FileNotFound ->
     forallb (file_exists g.2) (srcMaps_files b) = true ->
     has_keys c ["irfs"] ->
       o = Returns tt /\
       d = model_events b g.1 ++
           [EvCheckForFiles (srcMaps_files b);
            EvRunCommand gt_apps.srcMaps (pars w' gt_apps.srcMaps) run] /\
       env w' = runCommand_util gt_apps.srcMaps (pars w' gt_apps.srcMaps) run g.2 /\
       (forall a, a <> gt_apps.srcMaps -> pars w' a = pars w a) /\
       pars w' gt_apps.srcMaps !! "scfile" = Some (VStr (b +:+ "_SC.fits")) /\
       pars w' gt_apps.srcMaps !! "expcube" = Some (VStr (b +:+ "_ltcube.fits")) /\
       pars w' gt_apps.srcMaps !! "cmap" = Some (VStr (b +:+ "_CCUBE.fits")) /\
       pars w' gt_apps.srcMaps !! "srcmdl" = Some (VStr (b +:+ "_model.xml")) /\
       pars w' gt_apps.srcMaps !! "bexpmap" = Some (VStr (b +:+ "_BinnedExpMap.fits")) /\
       pars w' gt_apps.srcMaps !! "outfile" = Some (VStr (b +:+ "_srcMaps.fits")) /\
       pars w' gt_apps.srcMaps !! "irfs" = c !! "irfs" /\
       pars w' gt_apps.srcMaps !! "rfactor" = Some (VInt 4) /\
       pars w' gt_apps.srcMaps !! "emapbnds" = Some (VStr "no"))).
Proof.
  intros Hc Hb g. unfold runSrcMaps. wp.
  all: subst g; unfold srcMaps_files, model_events in *; cbn [env set_env] in *.
  all: split; [|split].
  all: intros; open_keys.
  all: repeat match goal with
       | H : _ \/ _ |- _ => destruct H
       end.
  all: try congruence.
  all: repeat match goal with
       | H1 : ?x = Raises ?e1, H2 : ?x = Raises ?e2 |- _ =>
           assert (e2 = e1) by congruence; subst e2; clear H2
       | H1 : ?x = Some ?v1, H2 : ?x = Some ?v2 |- _ =>
           assert (v2 = v1) by congruence; subst v2; clear H2
       end.
  all: try contradiction.
  all: repeat match goal with
       | H : (generateXMLmodel_util _ _).1 = _ |- _ => rewrite H
       end.
  all: repeat split;
       first [ reflexivity | others_kept
             | read_world; look; first [reflexivity | congruence | symmetry; eassumption] ].
Qed.

(** ** A full run *)

(** The configuration has every key that [runAll] reads, the base name is a
    string and [float] accepts the radius. *)
Definition configured (self : quickAnalysis) (c a : conf) (b : string) : Prop :=
  commonConf self = Some c /\ analysisConf self = Some a /\
  c !! "base" = Some (VStr b) /\
  has_keys c ["eventclass"; "irfs"; "binned"] /\
  numeric_key a "rad" /\
  has_keys a ["rad"; "ra"; "dec"; "tmin"; "tmax"; "emin"; "emax"; "zmax"].



Lemma has_keys_sub d ks ks' : has_keys d ks -> incl ks' ks -> has_keys d ks'.
Proof. unfold has_keys. rewrite !List.Forall_forall. auto. Qed.

Ltac keys :=
  eapply has_keys_sub; [eassumption | intros ? ?; cbn in *; solve [intuition]].




Lemma has_keys_In d ks k : has_keys d ks -> In k ks -> exists v, d !! k = Some v.
Proof.
  unfold has_keys. rewrite List.Forall_forall. intros H Hin. exact (H k Hin).
Qed.


(** How [runAll] begins, and how it ends when a file is missing. *)
Lemma runAll_check self run (w : @world Env) c b :
  commonConf self = Some c -> c !! "base" = Some (VStr b) ->
  post (runAll self run) w (fun o _ d =>
    (exists rest,
       d = EvInfo "***Checking for files***" ::
           EvCheckForFiles [b +:+ ".list"; b +:+ "_SC.fits"] :: rest) /\
    (forallb (file_exists (env w)) [b +:+ ".list"; b +:+ "_SC.fits"] = false ->
     o = Returns tt /\ issued d = [])).
Proof.
  intros Hc Hb. unfold runAll. wp.
  - apply post_any. intros [[]|e] w1 d1;
      [apply post_any; intros o2 w2 d2|];
      (split; [eexists; cbn; reflexivity | intros Hmiss; congruence]).
  - split; [eexists; reflexivity|]. intros _. split; reflexivity.
Qed.


(** ** The parameters each method writes *)











(** Taking a conjunction apart, each part being at hand. *)
Ltac parts :=
  repeat match goal with |- _ /\ _ => split end;
  match goal with H : ?P |- ?P => exact H end.


(** C6. Every path is the base name with a fixed suffix (and, for the list
    of event files, the prefix @).  With the base name [b] in the
    configuration, [runGTI] and [runLTCube] return having handed these
    paths to their tools, and so do the other methods on a configuration
    that has the keys they read; the command line of gtexpcube2 names its
    two files in this way, and so do the two checks for files. *)
Theorem paths_are_base_plus_suffix self run (w : @world Env) c b :
  commonConf self = Some c -> c !! "base" = Some (VStr b) ->
  (forall filterString roi,
     let r := runGTI self run filterString roi w in
     let p := pars (after r) gt_apps.maketime in
     one_command gt_apps.maketime run w r /\
     p !! "scfile" = Some (VStr (b +:+ "_SC.fits")) /\
     p !! "evfile" = Some (VStr (b +:+ "_filtered.fits")) /\
     p !! "outfile" = Some (VStr (b +:+ "_filtered_gti.fits"))) /\
  (forall zmax,
     let r := runLTCube self run zmax w in
     let p := pars (after r) gt_apps.expCube in
     one_command gt_apps.expCube run w r /\
     p !! "evfile" = Some (VStr (b +:+ "_filtered_gti.fits")) /\
     p !! "scfile" = Some (VStr (b +:+ "_SC.fits")) /\
     p !! "outfile" = Some (VStr (b +:+ "_ltcube.fits"))) /\
  (exists rest,
     did (runAll self run w) =
     EvInfo "***Checking for files***" ::
     EvCheckForFiles [b +:+ ".list"; b +:+ "_SC.fits"] :: rest) /\
  (forall a, configured self c a b ->
     (forall convtype,
        let r := runSelect self run convtype w in
        let p := pars (after r) gt_apps.filter in
        one_command gt_apps.filter run w r /\
        p !! "infile" = Some (VStr ("@" +:+ b +:+ ".list")) /\
        p !! "outfile" = Some (VStr (b +:+ "_filtered.fits"))) /\
     (let r := runExpMap self run w in
      let p := pars (after r) gt_apps.expMap in
      one_command gt_apps.expMap run w r /\
      p !! "evfile" = Some (VStr (b +:+ "_filtered_gti.fits")) /\
      p !! "scfile" = Some (VStr (b +:+ "_SC.fits")) /\
      p !! "expcube" = Some (VStr (b +:+ "_ltcube.fits")) /\
      p !! "outfile" = Some (VStr (b +:+ "_expMap.fits"))) /\
     (forall bin_size nbins,
        let r := runCCUBE self run bin_size nbins w in
        let p := pars (after r) gt_apps.evtbin in
        one_command gt_apps.evtbin run w r /\
        p !! "evfile" = Some (VStr (b +:+ "_filtered_gti.fits")) /\
        p !! "outfile" = Some (VStr (b +:+ "_CCUBE.fits"))) /\
     (forall bin_size,
        let r := runCMAP self run bin_size w in
        let p := pars (after r) gt_apps.evtbin in
        one_command gt_apps.evtbin run w r /\
        p !! "evfile" = Some (VStr (b +:+ "_filtered_gti.fits")) /\
        p !! "outfile" = Some (VStr (b +:+ "_CMAP.fits"))) /\
     (forall bin_size nbins i,
        c !! "irfs" = Some (VStr i) ->
        let r := runExpCube self run bin_size nbins w in
        out r = Returns tt /\
        exists cmd rest,
          did r = (if run then [EvOsSystem cmd; EvInfo cmd] else [EvPrint cmd]) /\
          cmd = "gtexpcube2 infile=" +:+ b +:+ "_ltcube.fits cmap=none outfile="
                +:+ b +:+ "_BinnedExpMap.fits irfs=" +:+ rest) /\
     (let g := generateXMLmodel_util (VStr b) (env w) in
      let r := runSrcMaps self run w in
      let p := pars (after r) gt_apps.srcMaps in
      g.1 = Returns tt \/ g.1 = Raises FileNotFound ->
      forallb (file_exists g.2)
        [b +:+ "_CCUBE.fits"; b +:+ "_ltcube.fits"; b +:+ "_BinnedExpMap.fits";
         b +:+ "_SC.fits"] = true ->
      out r = Returns tt /\
      did r = model_events b g.1 ++
              [EvCheckForFiles [b +:+ "_CCUBE.fits"; b +:+ "_ltcube.fits";
                                b +:+ "_BinnedExpMap.fits"; b +:+ "_SC.fits"];
               EvRunCommand gt_apps.srcMaps p run] /\
      p !! "scfile" = Some (VStr (b +:+ "_SC.fits")) /\
      p !! "expcube" = Some (VStr (b +:+ "_ltcube.fits")) /\
      p !! "cmap" = Some (VStr (b +:+ "_CCUBE.fits")) /\
      p !! "srcmdl" = Some (VStr (b +:+ "_model.xml")) /\
      p !! "bexpmap" = Some (VStr (b +:+ "_BinnedExpMap.fits")) /\
      p !! "outfile" = Some (VStr (b +:+ "_srcMaps.fits")))).
Proof.
  intros Hc Hb. split; [|split; [|split; [|]]].
  - intros fs roi. cbn zeta.
    destruct (runGTI_runs self run fs roi w c b Hc Hb) as (H1 & K1 & K2 & K3 & K4 & K5).
    split; [exact H1|]. parts.
  - intros zmax. cbn zeta.
    destruct (runLTCube_runs self run zmax w c b Hc Hb)
      as (H1 & K1 & K2 & K3 & K4 & K5 & K6).
    split; [exact H1|]. parts.
  - exact (proj1 (runAll_check self run w c b Hc Hb)).
  - intros a (_ & Ha & _ & Hkc & Hrad & Hka).
    split; [|split; [|split; [|split; [|split]]]].
    + intros convtype. cbn zeta.
      assert (has_keys c ["eventclass"]) as Hk1 by keys.
      destruct (runSelect_runs self run convtype w c a b Hc Ha Hb Hk1 Hka)
        as (H1 & K1 & K2 & K3 & K4 & _).
      split; [exact H1|]. parts.
    + cbn zeta.
      assert (has_keys c ["irfs"]) as Hk1 by keys.
      destruct (runExpMap_runs self run w c a b Hc Ha Hb Hk1 Hrad)
        as (H1 & K1 & K2 & K3 & K4 & _).
      split; [exact H1|]. parts.
    + intros bin_size nbins. cbn zeta.
      assert (has_keys a ["ra"; "dec"; "emin"; "emax"]) as Hk1 by keys.
      destruct (runCCUBE_runs self run bin_size nbins w c a b Hc Ha Hb Hrad Hk1)
        as (H1 & K1 & K2 & _).
      split; [exact H1|]. parts.
    + intros bin_size. cbn zeta.
      assert (has_keys a ["ra"; "dec"]) as Hk1 by keys.
      destruct (runCMAP_runs self run bin_size w c a b Hc Ha Hb Hrad Hk1)
        as (H1 & K1 & K2 & _).
      split; [exact H1|]. parts.
    + intros bin_size nbins i Hi. cbn zeta.
      destruct Hrad as (rad & f & Hr & Hf).
      destruct (has_keys_In _ _ "ra" Hka) as [ra Hra]; [cbn; tauto|].
      destruct (has_keys_In _ _ "dec" Hka) as [dec Hdec]; [cbn; tauto|].
      destruct (has_keys_In _ _ "emin" Hka) as [emin Hemin]; [cbn; tauto|].
      destruct (has_keys_In _ _ "emax" Hka) as [emax Hemax]; [cbn; tauto|].
      destruct (runExpCube_runs self run bin_size nbins w c a b i rad f ra dec emin emax
                  Hc Ha Hb Hi Hr Hf Hra Hdec Hemin Hemax) as (Ho & _ & Hd & _).
      split; [exact Ho|]. eexists _, _. split; [exact Hd|].
      unfold gtexpcube2_command. cbn. reflexivity.
    + intros g r p Hg Hthere.
      assert (has_keys c ["irfs"]) as Hk1 by keys.
      destruct (runSrcMaps_runs self run w c b Hc Hb) as (_ & _ & H3).
      destruct (H3 Hg Hthere Hk1)
        as (Ho & Hd & _ & _ & K1 & K2 & K3 & K4 & K5 & K6 & _).
      split; [exact Ho|]. split; [exact Hd|]. parts.
Qed.

(** ** Options before the first operand *)

Lemma do_shorts_returns rest optstring opts0 args :
  getopt.getopt rest "cm" = Returns (opts0, args) ->
  only_cm optstring = true ->
  exists opts,
    do_shorts "cm" rest optstring = Returns (opts ++ opts0, args) /\
    Forall cm_option opts /\ (optstring <> "" -> opts <> []).
Proof.
  intros Hr. induction optstring as [|opt optstring IH]; intros H.
  { exists []. split; [exact Hr|]. split; [constructor|]. congruence. }
  cbn in H. apply andb_prop in H as [Hopt H].
  destruct (IH H) as (opts & Hd & Hall & _).
  rewrite do_shorts_cons, Hd.
  apply orb_prop in Hopt as [Hopt|Hopt]; apply Ascii.eqb_eq in Hopt as ->; cbn;
    eexists (_ :: opts); (split; [reflexivity|]);
    (split; [constructor; [split; [cbn; auto | reflexivity] | exact Hall]
            | discriminate]).
Qed.

(** Clusters of [-c] and [-m] before an operand: [getopt] returns their
    options and, as operands, everything from the operand on. *)
Lemma getopt_clusters_operand pre c s rest :
  forallb cm_cluster pre = true -> c <> "-"%char ->
  exists opts,
    getopt.getopt (pre ++ String c s :: rest) "cm" = Returns (opts, String c s :: rest) /\
    Forall cm_option opts /\ (opts = [] <-> pre = []).
Proof.
  intros H Hc. induction pre as [|a pre IH].
  { exists []. split; [by apply getopt_operand|]. split; [constructor | tauto]. }
  cbn [forallb] in H. apply andb_prop in H as [Ha H].
  destruct (IH H) as (opts0 & Hg & Hall & _).
  destruct a as [|d [|c1 s1]]; try discriminate.
  unfold cm_cluster in Ha. apply andb_prop in Ha as [Hd Hs].
  apply Ascii.eqb_eq in Hd as ->.
  assert (c1 <> "-"%char) as Hc1 by (intros ->; discriminate).
  cbn [List.app]. rewrite getopt_shorts by done.
  destruct (do_shorts_returns _ (String c1 s1) _ _ Hg Hs) as (opts & Hd & Hall1 & Hne).
  exists (opts ++ opts0). split; [exact Hd|]. split; [by apply Forall_app|].
  split; [|discriminate].
  intros Happ. apply app_eq_nil in Happ as [-> _]. exfalso. by apply Hne.
Qed.

(** C8 (amended). The option string of [cli] is ['cm']: every option that
    [getopt] returns is [-c] or [-m], so the branch [opt == '-M'] is never
    entered, whatever its body.  Where [-M] stands among the leading options
    [getopt] raises, and [cli] does what its handler [usage] does.  Where an
    operand comes first, or after clusters of [-c] and [-m] only, [getopt]
    raises nothing whatever follows, a [-M] included: it returns what
    follows as operands.  With no option before the operand [cli] takes the
    operands as base names in turn; with an option before it [cli] enters
    the branch of [-c] or of [-m], which does not look at what follows the
    operand. *)
Theorem M_branch_never_entered :
  (forall args opts rest,
     getopt.getopt args "cm" = Returns (opts, rest) ->
     forall opt val, In (opt, val) opts -> opt <> "-M" /\ (opt = "-c" \/ opt = "-m")) /\
  (forall on_M argv (w : @world Env), cli_with on_M argv w = cli argv w) /\
  (forall a0 pre rest (w : @world Env),
     forallb cm_cluster pre = true ->
     let argv := a0 :: pre ++ "-M" :: rest in
     getopt.getopt (drop 1 argv) "cm" = Raises (getopt.not_recognized "M") /\
     out (cli argv w) = out (usage argv w) /\
     after (cli argv w) = after (usage argv w) /\
     did (cli argv w) = did (usage argv w)) /\
  (forall pre c s rest,
     forallb cm_cluster pre = true -> c <> "-"%char ->
     exists opts,
       getopt.getopt (pre ++ String c s :: rest) "cm" =
         Returns (opts, String c s :: rest) /\
       (opts = [] <-> pre = [])) /\
  (forall a0 c s rest (w : @world Env),
     c <> "-"%char ->
     let argv := a0 :: String c s :: rest in
     let operands :=
       try_except (cli_args (String c s :: rest)) is_usage_error (usage argv)
         (fun _ => ret tt) in
     out (cli argv w) = out (operands w) /\
     after (cli argv w) = after (operands w) /\
     did (cli argv w) = did (operands w)) /\
  (forall a0 pre c s rest (w : @world Env),
     forallb cm_cluster pre = true -> pre <> [] -> c <> "-"%char ->
     exists msg more,
       did (cli (a0 :: pre ++ String c s :: rest) w) = EvPrint msg :: more /\
       (msg = "Creating example configuration file called example.cfg" \/
        msg = "Creating model file from 2FGL called example_model.xml") /\
       forall b, In (EvReadConfig b) more -> False).
Proof.
  split; [|split; [|split; [|split; [|split]]]].
  - intros args opts rest H opt val Hin.
    apply getopt_cm_options in H. rewrite List.Forall_forall in H.
    apply H in Hin. destruct Hin as [[Ho|Ho] _]; cbn in Ho;
      subst opt; split; auto; discriminate.
  - intros on_M argv w. unfold cli, cli_with, try_except.
    destruct (getopt.getopt (drop 1 argv) "cm") as [[opts args]|e] eqn:E;
      [|reflexivity].
    apply getopt_cm_options in E.
    by rewrite (cli_opts_without_M on_M model_map_branch argv args opts _ E).
  - intros a0 pre rest w H argv.
    assert (getopt.getopt (drop 1 argv) "cm" = Raises (getopt.not_recognized "M")) as E.
    { exact (getopt_leading_M pre rest H). }
    split; [exact E|].
    unfold cli, cli_with, try_except. rewrite E.
    unfold raise, getopt.not_recognized. cbn [out after did is_usage_error].
    auto.
  - intros pre c s rest H Hc.
    destruct (getopt_clusters_operand pre c s rest H Hc) as (opts & Hg & _ & Hiff).
    eauto.
  - intros a0 c s rest w Hc argv operands. subst operands.
    unfold cli, cli_with. subst argv.
    change (drop 1 (a0 :: String c s :: rest)) with (String c s :: rest).
    rewrite getopt_operand by exact Hc. cbn [cli_opts]. auto.
  - intros a0 pre c s rest w H Hne Hc.
    destruct (getopt_clusters_operand pre c s rest H Hc) as (opts & Hg & Hall & Hiff).
    change (post (cli (a0 :: pre ++ String c s :: rest)) w (fun _ _ d =>
      exists msg more,
        d = EvPrint msg :: more /\
        (msg = "Creating example configuration file called example.cfg" \/
         msg = "Creating model file from 2FGL called example_model.xml") /\
        forall b, In (EvReadConfig b) more -> False)).
    unfold cli, cli_with.
    change (drop 1 (a0 :: pre ++ String c s :: rest)) with (pre ++ String c s :: rest).
    rewrite Hg.
    destruct opts as [|[o v] opts]; [exfalso; apply Hne; by apply Hiff|].
    inversion Hall as [|? ? [[Ho|Ho] _] _]; cbn in Ho; subst o; cbn [cli_opts].
    + change (String.eqb "-c" "-c") with true. cbn iota.
      wp_all. unfold writeConfig. cbn [commonConf analysisConf]. wp_all.
      cbn [List.app]. eexists _, _. split; [reflexivity|]. split; [auto|].
      intros b0 Hin. cbn in Hin. intuition discriminate.
    + change (String.eqb "-m" "-c") with false.
      change (String.eqb "-m" "-M") with false.
      change (String.eqb "-m" "-m") with true. cbn iota.
      unfold argv_item.
      destruct ((a0 :: pre ++ String c s :: rest) !! 2%nat) as [arg|].
      * wp_all.
        all: cbn [List.app]; eexists _, _; (split; [reflexivity|]); (split; [auto|]).
        all: intros b0 Hin; cbn in Hin; intuition discriminate.
      * wp_all.
        all: cbn [List.app]; eexists _, _; (split; [reflexivity|]); (split; [auto|]).
        all: intros b0 Hin; cbn in Hin; intuition discriminate.
Qed.

(** The keys are there when each lookup finds one. *)
Lemma has_keys_forallb (d : conf) ks :
  forallb (fun k => bool_decide (is_Some (d !! k))) ks = true -> has_keys d ks.
Proof.
  unfold has_keys. rewrite List.forallb_forall, List.Forall_forall.
  intros H k Hin. apply H in Hin. by apply bool_decide_eq_true in Hin.
Qed.

End Facts.

(** * The theorems at the sample run *)

Section Samples.
#[local] Existing Instance Sample.text.
#[local] Existing Instance Sample.utils.

Lemma runAll_checks_files_first_witness :
  out (runAll Sample.unbinned true Sample.empty_dir) = Returns tt /\
  issued (did (runAll Sample.unbinned true Sample.empty_dir)) = [].
Proof.
  destruct (runAll_checks_files_first Sample.unbinned true Sample.empty_dir
              default_commonConfig "MySource") as [_ H].
  - reflexivity.
  - vm_compute. reflexivity.
  - destruct H as (Ho & _ & _ & Hi).
    + left. vm_compute. reflexivity.
    + split; assumption.
Defined.



Lemma runSelect_runLTCube_parameters_witness :
  out (runSelect Sample.unbinned true default_convtype Sample.start) = Returns tt.
Proof.
  apply (proj1 (runSelect_runLTCube_parameters Sample.unbinned true default_convtype
           Sample.start default_commonConfig default_analysisConfig "MySource"
           (VInt 2) (VInt 10) (VInt 0) (VInt 0) (VStr "INDEF") (VStr "INDEF")
           (VInt 100) (VInt 300000) (VInt 100)
           eq_refl eq_refl
           ltac:(vm_compute; reflexivity) ltac:(vm_compute; reflexivity)
           ltac:(vm_compute; reflexivity) ltac:(vm_compute; reflexivity)
           ltac:(vm_compute; reflexivity) ltac:(vm_compute; reflexivity)
           ltac:(vm_compute; reflexivity) ltac:(vm_compute; reflexivity)
           ltac:(vm_compute; reflexivity) ltac:(vm_compute; reflexivity))).
Defined.

Lemma runSrcMaps_missing_files_witness :
  let r := runSrcMaps Sample.binned true Sample.empty_dir in
  pars (after r) = pars Sample.empty_dir /\ issued (did r) = [].
Proof.
  intros r.
  destruct (runSrcMaps_missing_files Sample.binned true Sample.empty_dir
              (<["binned" := VBool true]> default_commonConfig) "MySource"
              eq_refl ltac:(vm_compute; reflexivity) ltac:(vm_compute; reflexivity))
    as (Hp & Hi & _).
  split; assumption.
Defined.

Lemma runCMAP_leaves_energy_binning_witness :
  let w := after (runCCUBE Sample.binned true default_bin_size default_nbins Sample.start) in
  pars (after (runCMAP Sample.binned true default_bin_size w)) gt_apps.evtbin
    !! "enumbins" = Some default_nbins.
Proof.
  intros w.
  destruct (proj2 (proj2 (proj2 (runCMAP_leaves_energy_binning Sample.binned true
              default_bin_size w)))
              true default_bin_size default_nbins Sample.start eq_refl
              ltac:(vm_compute; reflexivity))
    as (a & emin & emax & _ & _ & _ & _ & _ & _ & H).
  exact H.
Defined.

(** C8, as the spec has it, fails: after the first operand [getopt] stops
    reading options, so a later [-M] raises nothing; it is taken for a base
    name, and the handler that formats the usage text is not entered. *)
Lemma M_after_operand_not_rejected :
  let argv := ["quickAnalysis.py"; "src"; "-M"] in
  In "-M" argv /\
  getopt.getopt (drop 1 argv) "cm" = Returns ([], ["src"; "-M"]) /\
  did (cli argv Sample.start) =
    did (cli_args ["src"; "-M"] Sample.start) /\
  forallb (fun e => match e with EvPrint _ => false | _ => true end)
          (did (cli argv Sample.start)) = true.
Proof.
  vm_compute. repeat split. right. right. left. reflexivity.
Defined.

Lemma constructor_early_return_witness :
  (exists self,
     out (__init__ "MySource" true default_analysisConfig default_commonConfig
            Sample.start) = Returns self /\
     commonConf self = None /\ analysisConf self = None /\ unusable self) /\
  (let self := QuickAnalysis "MySource"
                 (Some (∅ ∪ <["base" := VStr "MySource"]> default_commonConfig))
                 (Some (∅ ∪ default_analysisConfig)) in
   is_Some (commonConf self) /\ is_Some (analysisConf self)).
Proof.
  split.
  - apply (proj1 (constructor_early_return "MySource" default_analysisConfig
                    default_commonConfig Sample.start)).
    vm_compute. reflexivity.
  - intros self.
    apply (proj2 (proj2 (constructor_early_return (QU := Sample.reading) "MySource"
                    default_analysisConfig default_commonConfig Sample.start)) self).
    + vm_compute. reflexivity.
    + vm_compute. reflexivity.
Defined.


(** The sample objects have what a full run reads, and the sample helpers
    remove no file. *)
Ltac sample_keys := apply has_keys_forallb; vm_compute; reflexivity.


Lemma binned_configured :
  configured Sample.binned (<["binned" := VBool true]> default_commonConfig)
    default_analysisConfig "MySource".
Proof.
  unfold configured.
  refine (conj eq_refl (conj eq_refl (conj _ (conj _ (conj _ _))))).
  - vm_compute. reflexivity.
  - sample_keys.
  - exists (VInt 10), 10%float. split; vm_compute; reflexivity.
  - sample_keys.
Defined.










Lemma paths_are_base_plus_suffix_witness :
  let w := Sample.start in
  let self := Sample.binned in
  pars (after (runSelect self true default_convtype w)) gt_apps.filter !! "infile" =
    Some (VStr "@MySource.list") /\
  pars (after (runGTI self true default_filterString default_roi w)) gt_apps.maketime
    !! "outfile" = Some (VStr "MySource_filtered_gti.fits") /\
  pars (after (runLTCube self true default_zmax w)) gt_apps.expCube !! "outfile" =
    Some (VStr "MySource_ltcube.fits") /\
  pars (after (runExpMap self true w)) gt_apps.expMap !! "outfile" =
    Some (VStr "MySource_expMap.fits") /\
  pars (after (runCCUBE self true default_bin_size default_nbins w)) gt_apps.evtbin
    !! "outfile" = Some (VStr "MySource_CCUBE.fits") /\
  pars (after (runCMAP self true default_bin_size w)) gt_apps.evtbin !! "outfile" =
    Some (VStr "MySource_CMAP.fits") /\
  out (runExpCube self true default_bin_size default_nbins w) = Returns tt /\
  pars (after (runSrcMaps self true w)) gt_apps.srcMaps !! "srcmdl" =
    Some (VStr "MySource_model.xml") /\
  pars (after (runSrcMaps self true w)) gt_apps.srcMaps !! "outfile" =
    Some (VStr "MySource_srcMaps.fits").
Proof.
  intros w self.
  destruct (paths_are_base_plus_suffix self true w
              (<["binned" := VBool true]> default_commonConfig) "MySource")
    as (Hgti & Hlt & _ & Hrest).
  - reflexivity.
  - vm_compute. reflexivity.
  - destruct (Hrest default_analysisConfig binned_configured)
      as (Hsel & Hmap & Hcc & Hcm & Hcube & Hsrc).
    split; [|split; [|split; [|split; [|split; [|split; [|split; [|split]]]]]]].
    + destruct (Hsel default_convtype) as (_ & K & _). exact K.
    + destruct (Hgti default_filterString default_roi) as (_ & _ & _ & K). exact K.
    + destruct (Hlt default_zmax) as (_ & _ & _ & K). exact K.
    + destruct Hmap as (_ & _ & _ & _ & K). exact K.
    + destruct (Hcc default_bin_size default_nbins) as (_ & _ & K). exact K.
    + destruct (Hcm default_bin_size) as (_ & _ & K). exact K.
    + destruct (Hcube default_bin_size default_nbins "P7SOURCE_V6") as (K & _).
      * vm_compute. reflexivity.
      * exact K.
    + destruct Hsrc as (_ & _ & _ & _ & _ & K & _).
      * left. reflexivity.
      * vm_compute. reflexivity.
      * exact K.
    + destruct Hsrc as (_ & _ & _ & _ & _ & _ & _ & K).
      * left. reflexivity.
      * vm_compute. reflexivity.
      * exact K.
Defined.

Lemma M_branch_never_entered_witness :
  "-c" <> "-M" /\
  getopt.getopt ["-c"; "-M"; "src"] "cm" = Raises (getopt.not_recognized "M") /\
  did (cli ["quickAnalysis.py"; "-c"; "-M"; "src"] Sample.start) =
    did (usage ["quickAnalysis.py"; "-c"; "-M"; "src"] Sample.start) /\
  (exists opts, getopt.getopt ["-m"; "src"; "-M"] "cm" = Returns (opts, ["src"; "-M"])) /\
  out (cli ["quickAnalysis.py"; "src"; "-M"] Sample.start) =
    out (try_except (cli_args ["src"; "-M"]) is_usage_error
           (usage ["quickAnalysis.py"; "src"; "-M"]) (fun _ => ret tt) Sample.start) /\
  (exists msg more,
     did (cli ["quickAnalysis.py"; "-m"; "src"; "-M"] Sample.start) = EvPrint msg :: more).
Proof.
  destruct M_branch_never_entered as (H1 & _ & H3 & H4 & H5 & H6).
  split; [|split; [|split; [|split; [|split]]]].
  - apply (H1 ["-c"; "src"] [("-c", "")] ["src"] ltac:(vm_compute; reflexivity)
              "-c" "" ltac:(left; reflexivity)).
  - destruct (H3 "quickAnalysis.py" ["-c"] ["src"] Sample.start
                ltac:(vm_compute; reflexivity)) as (Hg & _). exact Hg.
  - destruct (H3 "quickAnalysis.py" ["-c"] ["src"] Sample.start
                ltac:(vm_compute; reflexivity)) as (_ & _ & _ & Hd). exact Hd.
  - destruct (H4 ["-m"] "s"%char "rc" ["-M"] ltac:(vm_compute; reflexivity)
                ltac:(discriminate)) as (opts & Hg & _).
    exists opts. exact Hg.
  - destruct (H5 "quickAnalysis.py" "s"%char "rc" ["-M"] Sample.start
                ltac:(discriminate)) as (Ho & _). exact Ho.
  - destruct (H6 "quickAnalysis.py" ["-m"] "s"%char "rc" ["-M"] Sample.start
                ltac:(vm_compute; reflexivity) ltac:(discriminate) ltac:(discriminate))
      as (msg & more & Hd & _).
    exists msg, more. exact Hd.
Defined.

(** ** The further properties at the sample run *)


Lemma cli_without_operand_witness :
  out (cli ["quickAnalysis.py"] Sample.start) =
  Raises (TypeError "not enough arguments for format string").
Proof.
  apply (cli_without_operand "quickAnalysis.py" [] [] Sample.start).
  - reflexivity.
  - intros v opts' H. discriminate H.
Defined.

Lemma cli_example_configuration_witness :
  out (cli ["quickAnalysis.py"; "-c"; "src"] Sample.start) = Returns tt.
Proof.
  apply (cli_example_configuration "quickAnalysis.py" ["-c"; "src"] "" [] ["src"]
           Sample.start).
  vm_compute. reflexivity.
Defined.

Lemma cli_missing_configuration_witness :
  out (cli ["quickAnalysis.py"; "src"; "other"] Sample.start) =
  Raises (AttributeError "commonConf").
Proof.
  apply (cli_missing_configuration "quickAnalysis.py" "s"%char "rc" ["other"]
           Sample.start).
  - discriminate.
  - reflexivity.
Defined.

Lemma cli_model_file_base_witness :
  exists msg more,
    did (cli ["quickAnalysis.py"; "-m"; "-m"; "src"] Sample.start) =
    [EvPrint "Creating model file from 2FGL called example_model.xml";
     EvInitLogger "-m" "quickAnalysis"; EvInfo msg;
     EvGenerateXMLmodel (VStr "-m")] ++ more /\
    issued more = [].
Proof.
  apply (cli_model_file_base "quickAnalysis.py" "-m" "-m" ["src"] ""
           [("-m", "")] ["src"] Sample.start).
  - vm_compute. reflexivity.
  - discriminate.
Defined.

Lemma runGTI_parameters_witness :
  out (runGTI Sample.unbinned true default_filterString default_roi Sample.start) =
  Returns tt.
Proof.
  apply (runGTI_parameters Sample.unbinned true default_filterString default_roi
           Sample.start default_commonConfig "MySource").
  - reflexivity.
  - vm_compute. reflexivity.
Defined.

Lemma run_methods_need_base_witness :
  out (runExpMap (QuickAnalysis "MySource" (Some ∅) (Some ∅)) true Sample.start) =
  Raises (KeyError "base").
Proof.
  apply (run_methods_need_base (QuickAnalysis "MySource" (Some ∅) (Some ∅)) true
           Sample.start ∅).
  - reflexivity.
  - vm_compute. reflexivity.
Defined.

Lemma runExpMap_bad_radius_witness :
  let self := QuickAnalysis "MySource" (Some default_commonConfig)
                (Some (<["rad" := VStr "ten"]> default_analysisConfig)) in
  out (runExpMap self true Sample.start) = Raises ValueError /\
  did (runExpMap self true Sample.start) = [].
Proof.
  intros self.
  destruct (runExpMap_bad_radius self true Sample.start default_commonConfig
              (<["rad" := VStr "ten"]> default_analysisConfig) "MySource"
              (VStr "P7SOURCE_V6") (VStr "ten") ValueError)
    as (Ho & Hd & _).
  - reflexivity.
  - reflexivity.
  - vm_compute. reflexivity.
  - vm_compute. reflexivity.
  - vm_compute. reflexivity.
  - reflexivity.
  - split; assumption.
Defined.

Lemma runExpMap_grid_witness :
  pars (after (runExpMap Sample.unbinned true Sample.start)) gt_apps.expMap !! "nlong" =
  Some (VInt 120).
Proof.
  apply (proj1 (runExpMap_grid Sample.unbinned true Sample.start
                  ltac:(vm_compute; reflexivity))).
Defined.

Lemma counts_geometry_witness :
  exists a rad f,
    analysisConf Sample.binned = Some a /\ a !! "rad" = Some rad /\
    float_of_value rad = Returns f /\
    pars (after (runCMAP Sample.binned true default_bin_size Sample.start))
      gt_apps.evtbin !! "nxpix" = Some (NumberOfPixels f default_bin_size).
Proof.
  destruct (proj2 (counts_geometry Sample.binned true default_bin_size default_nbins
                     Sample.start))
    as (a & rad & f & H1 & H2 & H3 & H4 & _).
  - vm_compute. reflexivity.
  - exists a, rad, f. repeat split; assumption.
Defined.

Lemma runCMAP_after_runCCUBE_witness :
  let r1 := runCCUBE Sample.binned true default_bin_size default_nbins Sample.start in
  out (runCMAP Sample.binned true default_bin_size (after r1)) = Returns tt.
Proof.
  apply (runCMAP_after_runCCUBE Sample.binned true default_bin_size default_nbins
           Sample.start).
  vm_compute. reflexivity.
Defined.

Lemma runExpCube_dry_run_witness :
  exists cmd,
    did (runExpCube Sample.binned false default_bin_size default_nbins Sample.start) =
      [EvPrint cmd] /\
    did (runExpCube Sample.binned true default_bin_size default_nbins Sample.start) =
      [EvOsSystem cmd; EvInfo cmd].
Proof.
  destruct (proj2 (proj2 (runExpCube_dry_run Sample.binned default_bin_size
                            default_nbins Sample.start)))
    as (cmd & H1 & H2 & _).
  - vm_compute. reflexivity.
  - exists cmd. split; assumption.
Defined.

Lemma generateXMLmodel_swallows_missing_files_witness :
  out (generateXMLmodel Sample.unbinned Sample.start) = Returns tt.
Proof.
  destruct (generateXMLmodel_swallows_missing_files Sample.unbinned Sample.start
              default_commonConfig (VStr "MySource")) as (_ & _ & _ & H & _).
  - reflexivity.
  - vm_compute. reflexivity.
  - exact H.
Defined.

Lemma runAll_passes_run_flag_witness :
  let d := did (runAll Sample.binned true Sample.start) in
  let p := pars (after (runAll Sample.binned true Sample.start)) gt_apps.filter in
  let cmd := "gtexpcube2 infile=MySource_ltcube.fits cmap=none outfile=MySource_BinnedExpMap.fits irfs=P7SOURCE_V6 xref=0 yref=0 nxpix=141 nypix=141 binsz=0.1 coordsys=CEL axisrot=0 proj=AIT ebinalg=LOG emin=100 emax=300000 enumbins=30" in
  In (EvRunCommand gt_apps.filter p true) d /\ In (EvOsSystem cmd) d /\
  true = true /\ true = true.
Proof.
  intros d p cmd.
  assert (In (EvRunCommand gt_apps.filter p true) d) as H1.
  { apply (nth_error_In d 3). vm_compute. reflexivity. }
  assert (In (EvOsSystem cmd) d) as H2.
  { apply (nth_error_In d 11). vm_compute. reflexivity. }
  destruct (runAll_passes_run_flag Sample.binned true Sample.start) as [Ha Hb].
  split; [exact H1|]. split; [exact H2|].
  split; [exact (Ha _ _ _ H1) | exact (Hb _ H2)].
Defined.

Lemma runAll_uses_defaults_witness :
  let p := pars (after (runAll Sample.unbinned true Sample.start)) gt_apps.expCube in
  p !! "zmax" = Some (VInt 180) /\
  default_analysisConfig !! "zmax" = Some (VInt 100).
Proof.
  intros p. split; [|vm_compute; reflexivity].
  apply (runAll_uses_defaults Sample.unbinned true Sample.start gt_apps.expCube p true).
  apply (nth_error_In _ 7). vm_compute. reflexivity.
Defined.

Lemma runSrcMaps_parameters_witness :
  out (runSrcMaps Sample.binned true Sample.start) = Returns tt /\
  issued (did (runSrcMaps Sample.binned true Sample.start)) = [gtsrcmaps].
Proof.
  destruct (runSrcMaps_parameters Sample.binned true Sample.start
              (<["binned" := VBool true]> default_commonConfig) "MySource"
              (VStr "P7SOURCE_V6"))
    as (H1 & H2 & _).
  - reflexivity.
  - vm_compute. reflexivity.
  - vm_compute. reflexivity.
  - left. reflexivity.
  - vm_compute. reflexivity.
  - split; assumption.
Defined.

Lemma runAll_mode_frame_witness :
  pars (after (runAll Sample.unbinned true Sample.start)) gt_apps.evtbin =
    pars Sample.start gt_apps.evtbin /\
  pars (after (runAll Sample.binned true Sample.start)) gt_apps.expMap =
    pars Sample.start gt_apps.expMap.
Proof.
  destruct (runAll_mode_frame Sample.unbinned true Sample.start) as [Hu _].
  destruct (runAll_mode_frame Sample.binned true Sample.start) as [_ Hb].
  split.
  - destruct Hu as [K _]; [vm_compute; reflexivity | exact K].
  - exact (Hb ltac:(vm_compute; reflexivity)).
Defined.

End Samples.
